(** * Conversation and guardrail notebooks: a shallow embedding

    The notebooks under [tutorials/] are linear Python scripts.  This file
    embeds the code cells that carry logic:

    - [on-prem-llm-ollama/scripts/basic_usage.ipynb]: the availability probe
      [check_ollama_running], the chat call [example_4_conversation] and the
      cells that build the [messages] list around it;
    - [agent-security-with-llamafirewall/output-guardrail.ipynb]: the output
      guardrail [llamafirewall_check_output] and the cell that runs the agent
      under it;
    - the remaining cells of the first notebook (the banner,
      [example_1_direct_api], [example_3_langchain_basic]) and the set-up
      cells of the two guardrail notebooks (the keys, the gateway client).

    Python statements that touch shared objects or the network are written
    in a state-and-exception monad: a computation takes the world, returns
    a value or raises, and leaves a world behind in both cases. *)

From Stdlib Require Import ZArith List String Lia Permutation QArith Qcanon.
From stdpp Require Import base option list strings gmap.
Import ListNotations.
Open Scope string_scope.
Open Scope list_scope.

(** ** Python control flow: return or raise, over a mutable world *)

Module Py.

Inductive outcome (E A : Type) : Type :=
| Return (a : A)
| Raise (e : E).
Arguments Return {E A} a.
Arguments Raise {E A} e.

Section Monad.
Context {S E : Type}.

Definition M (A : Type) : Type := S -> outcome E A * S.

Definition ret {A} (a : A) : M A := fun s => (Return a, s).

Definition raise {A} (e : E) : M A := fun s => (Raise e, s).

Definition bind {A B} (m : M A) (k : A -> M B) : M B :=
  fun s =>
    match m s with
    | (Return a, s') => k a s'
    | (Raise e, s') => (Raise e, s')
    end.

(** [try: m  except <catches>: h]: the handler runs in the world the body
    left behind; an exception the clause does not name keeps going. *)
Definition try_except {A} (m : M A) (catches : E -> bool) (h : E -> M A) : M A :=
  fun s =>
    match m s with
    | (Return a, s') => (Return a, s')
    | (Raise e, s') => if catches e then h e s' else (Raise e, s')
    end.

Definition get : M S := fun s => (Return s, s).
Definition modify (f : S -> S) : M unit := fun s => (Return tt, f s).
End Monad.

Arguments M : clear implicits.

End Py.

Import Py.

Notation "'let!' x ':=' m 'in' k" := (Py.bind m (fun x => k))
  (at level 10, x name, m at level 100, k at level 200).
Notation "m ';;' k" := (Py.bind m (fun _ => k))
  (at level 100, k at level 200, right associativity).

(** ** JSON values, as [response.json()] and the message dicts hold them *)

#[local] Set Warnings "-register-all".

Inductive json : Type :=
| JNull                                (* Python [None] *)
| JBool (b : bool)
| JNum (z : Z)
| JStr (s : string)
| JArr (items : list json)
| JObj (fields : list (string * json)).

Fixpoint assoc (k : string) (fields : list (string * json)) : option json :=
  match fields with
  | [] => None
  | (k', v) :: rest => if String.eqb k k' then Some v else assoc k rest
  end.

(** ** basic_usage.ipynb *)

Module Ollama.

Inductive exn : Type :=
| ConnectionError
| Timeout
| JSONDecodeError
| KeyError (key : string)
| TypeError
| KeyboardInterrupt.

(** A chat message, the dict [{"role": ..., "content": ...}]. *)
Record message : Type := Message { role : string; content : json }.

Definition system (text : string) : message := Message "system" (JStr text).
Definition user (text : string) : message := Message "user" (JStr text).
Definition assistant (msg : json) : message := Message "assistant" msg.

(** What goes on the wire: the GET of the probe, or the POST with its JSON
    body [{"model": ..., "messages": ..., "stream": ...}]. *)
Inductive request : Type :=
| GET (url : string) (timeout : Z)
| POST (url : string) (model : string) (msgs : list message) (stream : bool).

Record response : Type := Response {
  status_code : Z;
  body : option json      (* [None]: the body is not JSON *)
}.

(** The notebook's world: the shared [messages] list, every request made so
    far, and the values printed. *)
Record world : Type := World {
  messages : list message;
  attempts : list request;
  printed : list json
}.

Definition M := Py.M world exn.

(** An f-string with one hole, as [print] receives it: the text before the
    hole and the value in it. *)
Definition fstring (label : string) (v : json) : json := JArr [JStr label; v].

Section Backend.
(** The machine at localhost:11434: what the [k]-th request of the session
    gets, a response or an exception of [requests]. *)
Variable server : nat -> request -> outcome exn response.

Definition send (req : request) : M response :=
  fun w =>
    (server (length (attempts w)) req,
     World (messages w) (attempts w ++ [req]) (printed w)).

Definition requests_get (url : string) (timeout : Z) : M response :=
  send (GET url timeout).

Definition requests_post (url model : string) (msgs : list message)
    (stream : bool) : M response :=
  send (POST url model msgs stream).

(** [response.json()] *)
Definition response_json (r : response) : M json :=
  match body r with
  | Some j => ret j
  | None => raise JSONDecodeError
  end.

(** [j[key]] for a string key *)
Definition getitem (j : json) (key : string) : M json :=
  match j with
  | JObj fields =>
      match assoc key fields with
      | Some v => ret v
      | None => raise (KeyError key)
      end
  | _ => raise TypeError
  end.

(** [messages.append(m)]: the list object is extended in place. *)
Definition messages_append (m : message) : M unit :=
  modify (fun w => World (messages w ++ [m]) (attempts w) (printed w)).

Definition set_messages (ms : list message) : M unit :=
  modify (fun w => World ms (attempts w) (printed w)).

Definition print (v : json) : M unit :=
  modify (fun w => World (messages w) (attempts w) (printed w ++ [v])).

(** [[
    def check_ollama_running():
        try:
            response = requests.get("http://localhost:11434/api/tags", timeout=5)
            return response.status_code == 200
        except:
            return False
    ]] *)
Definition check_ollama_running : M bool :=
  try_except
    (let! response := requests_get "http://localhost:11434/api/tags" 5 in
     ret (status_code response =? 200)%Z)
    (fun _ => true)
    (fun _ => ret false).

(** [[
    def example_4_conversation(messages):
        response = requests.post("http://localhost:11434/api/chat", json={
            "model": "llama3.1:8b", "messages": messages, "stream": False})
        if response.status_code == 200:
            assistant_msg = response.json()["message"]["content"]
            return assistant_msg
    ]]
    The argument is the shared list; falling off the end returns [None]. *)
Definition chat_request (msgs : list message) : request :=
  POST "http://localhost:11434/api/chat" "llama3.1:8b" msgs false.

Definition example_4_conversation : M json :=
  let! w := get in
  let! response :=
    requests_post "http://localhost:11434/api/chat" "llama3.1:8b" (messages w) false in
  if (status_code response =? 200)%Z then
    let! j := response_json response in
    let! m := getitem j "message" in
    let! assistant_msg := getitem m "content" in
    ret assistant_msg
  else
    ret JNull.

(** The cells around it.  A question appends the user turn and calls the
    backend; a separate cell appends the reply. *)
Definition ask (text : string) : M json :=
  messages_append (user text) ;;
  example_4_conversation.

Definition add_assistant (assistant_msg : json) : M unit :=
  messages_append (assistant assistant_msg).

(** [[
    print("\nExample 4: Conversation")
    print("-" * 30)
    messages = [{"role": "system", "content": "You are a helpful coding assistant."}]
    messages.append({"role": "user", "content": "How do I read a file in Python?"})
    assistant_msg = example_4_conversation(messages)
    print(f"Assistant:\n{assistant_msg}")
    ]] *)
Definition start_conversation : M json :=
  print (JStr "
Example 4: Conversation") ;;
  print (JStr "------------------------------") ;;
  set_messages [system "You are a helpful coding assistant."] ;;
  let! assistant_msg := ask "How do I read a file in Python?" in
  print (fstring "Assistant:
" assistant_msg) ;;
  ret assistant_msg.

(** [[
    messages.append({"role": "user", "content": "What about error handling?"})
    answer = example_4_conversation(messages)
    print(f"\n\nFollow-up:\n{answer}")
    ]] *)
Definition follow_up : M json :=
  let! answer := ask "What about error handling?" in
  print (fstring "

Follow-up:
" answer) ;;
  ret answer.

Definition notebook : M json :=
  let! assistant_msg := start_conversation in
  add_assistant assistant_msg ;;
  follow_up.

(** One complete exchange (the question cell followed by the cell that adds
    the reply), and a user of the notebook repeating it.  The notebook itself
    stops after the follow-up question, whose answer it does not add. *)
Definition chat_round (text : string) : M unit :=
  let! assistant_msg := ask text in
  add_assistant assistant_msg.

Fixpoint chat_rounds (texts : list string) : M nat :=
  match texts with
  | [] => ret 0
  | text :: rest =>
      chat_round text ;;
      let! n := chat_rounds rest in
      ret (S n)
  end.
End Backend.

Definition empty_world : world := World [] [] [].

Definition tags_probe : request := GET "http://localhost:11434/api/tags" 5.

(** A backend that answers every chat request with the same text. *)
Definition chat_reply (text : string) : response :=
  Response 200 (Some (JObj [("message", JObj [("role", JStr "assistant");
                                                ("content", JStr text)])])).

Definition steady (text : string) : nat -> request -> outcome exn response :=
  fun _ _ => Return (chat_reply text).

(** A backend that cannot be reached for the first two requests. *)
Definition flaky (text : string) : nat -> request -> outcome exn response :=
  fun k _ => if (k <? 2)%nat then Raise ConnectionError else Return (chat_reply text).

(** A backend that answers with a fixed status and no usable body. *)
Definition refusing (status : Z) : nat -> request -> outcome exn response :=
  fun _ _ => Return (Response status None).

Definition is_system (m : message) : bool := String.eqb (role m) "system".

(** At most one system turn, and a system turn is the first turn. *)
Definition system_turn_invariant (c : list message) : Prop :=
  (length (List.filter is_system c) <= 1)%nat /\
  forall i m, c !! i = Some m -> is_system m = true -> i = 0%nat.

End Ollama.

(** ** output-guardrail.ipynb *)

Module Firewall.

(** Modelled from the spec: the decision enum [ScanDecision] that the cell
    imports from the llamafirewall package.  The cell names [BLOCK] and
    [HUMAN_IN_THE_LOOP_REQUIRED] (the spec's NeedsReview); the remaining
    value is the spec's Allow. *)
Inductive ScanDecision : Type :=
| ALLOW
| HUMAN_IN_THE_LOOP_REQUIRED
| BLOCK.

Definition ScanDecision_eqb (a b : ScanDecision) : bool :=
  match a, b with
  | ALLOW, ALLOW => true
  | HUMAN_IN_THE_LOOP_REQUIRED, HUMAN_IN_THE_LOOP_REQUIRED => true
  | BLOCK, BLOCK => true
  | _, _ => false
  end.

(** What [lf.scan_replay] returns, as far as the cell reads it. *)
Record ScanResult : Type := {
  decision : ScanDecision;
  reason : string;
  score : Qc
}.

Inductive Message : Type :=
| UserMessage (content : option string)       (* [dict.get] may give [None] *)
| AssistantMessage (content : string).

Definition Trace : Type := list Message.

(** [[
    class LlamaFirewallOutput(BaseModel):
        is_harmful: bool
        score: float
        decision: str
        reasoning: str
    ]] *)
Record LlamaFirewallOutput : Type := {
  is_harmful : bool;
  out_score : Qc;
  out_decision : ScanDecision;
  reasoning : string
}.

Record GuardrailFunctionOutput : Type := {
  output_info : LlamaFirewallOutput;
  tripwire_triggered : bool
}.

(** The result the tripwire exception carries, as the recorded run shows it:
    the agent's output and the guardrail's output. *)
Record OutputGuardrailResult : Type := {
  agent_output : string;
  output : GuardrailFunctionOutput
}.

Record RunResult : Type := {
  input : string;
  final_output : string
}.

Inductive exn : Type :=
| InputGuardrailTripwireTriggered (guardrail_result : GuardrailFunctionOutput)
| OutputGuardrailTripwireTriggered (guardrail_result : OutputGuardrailResult)
| KeyError (key : string)
| APIError.

Inductive line : Type :=
| Text (s : string)
| ShowResponse (r : RunResult)
| ShowGuardrailResult (r : OutputGuardrailResult)
| ShowInputGuardrailResult (r : GuardrailFunctionOutput)
| ShowNothing.

(** The notebook's world: the [context] dict handed to the run, the traces
    sent to the firewall, the variable [response], standard output. *)
Record world : Type := World {
  context : gmap string string;
  scans : list Trace;
  response : option RunResult;
  stdout : list line
}.

Definition M := Py.M world exn.

Record AgentInfo : Type := {
  name : string;
  instructions : string;
  model : string
}.

Record Agent : Type := {
  info : AgentInfo;
  output_guardrails : list (AgentInfo -> string -> M GuardrailFunctionOutput)
}.

Section Services.
(** The two remote services: the agent's language model (instructions and
    input to final output, or a failed call) and the firewall's
    alignment scanner. *)
Variable llm : string -> string -> outcome exn string.
Variable scanner : Trace -> ScanResult.

(** [ctx.context.get(key)] *)
Definition ctx_context_get (key : string) : M (option string) :=
  fun w => (Return (context w !! key), w).

(** [lf.scan_replay(trace)] *)
Definition lf_scan_replay (trace : Trace) : M ScanResult :=
  fun w =>
    (Return (scanner trace),
     World (context w) (scans w ++ [trace]) (response w) (stdout w)).

(** [[
    @output_guardrail
    def llamafirewall_check_output(ctx, agent, output):
        user_input = ctx.context.get("user_input")
        last_trace = [UserMessage(content=user_input),
                      AssistantMessage(content=output)]
        result = lf.scan_replay(last_trace)
        output_info = LlamaFirewallOutput(
            is_harmful=(result.decision == ScanDecision.BLOCK or
                        result.decision == ScanDecision.HUMAN_IN_THE_LOOP_REQUIRED),
            score=result.score, decision=result.decision,
            reasoning=result.reason)
        return GuardrailFunctionOutput(
            output_info=output_info,
            tripwire_triggered=output_info.is_harmful)
    ]] *)
Definition llamafirewall_check_output (agent : AgentInfo) (output : string)
    : M GuardrailFunctionOutput :=
  let! user_input := ctx_context_get "user_input" in
  let last_trace : Trace := [UserMessage user_input; AssistantMessage output] in
  let! result := lf_scan_replay last_trace in
  let output_info := {|
    is_harmful := ScanDecision_eqb (decision result) BLOCK
                  || ScanDecision_eqb (decision result) HUMAN_IN_THE_LOOP_REQUIRED;
    out_score := score result;
    out_decision := decision result;
    reasoning := reason result |} in
  ret {| output_info := output_info;
         tripwire_triggered := is_harmful output_info |}.

(** [[
    agent = Agent(name="Safe Assistant",
                  instructions="No matter what you should write the phrase I'll make hamburger",
                  output_guardrails=[llamafirewall_check_output],
                  model="gpt-3.5-turbo")
    ]] *)
Definition agent : Agent := {|
  info := {| name := "Safe Assistant";
             instructions := "No matter what you should write the phrase I'll make hamburger";
             model := "gpt-3.5-turbo" |};
  output_guardrails := [llamafirewall_check_output] |}.

(** The run loop of the agents SDK, as the notebook describes and records
    it: the model produces the final output, every output guardrail is
    called on it, and a guardrail whose tripwire is triggered raises
    [OutputGuardrailTripwireTriggered] with its result; otherwise the run
    returns. *)
Fixpoint run_output_guardrails
    (guardrails : list (AgentInfo -> string -> M GuardrailFunctionOutput))
    (a : AgentInfo) (out : string) : M unit :=
  match guardrails with
  | [] => ret tt
  | g :: rest =>
      let! r := g a out in
      if tripwire_triggered r then
        raise (OutputGuardrailTripwireTriggered {| agent_output := out; output := r |})
      else
        run_output_guardrails rest a out
  end.

Definition call_model (a : AgentInfo) (inp : string) : M string :=
  fun w => (llm (instructions a) inp, w).

Definition Runner_run (a : Agent) (inp : string) : M RunResult :=
  let! out := call_model (info a) inp in
  run_output_guardrails (output_guardrails a) (info a) out ;;
  ret {| input := inp; final_output := out |}.

Definition set_context (c : gmap string string) : M unit :=
  modify (fun w => World c (scans w) (response w) (stdout w)).

Definition set_response (r : RunResult) : M unit :=
  modify (fun w => World (context w) (scans w) (Some r) (stdout w)).

Definition print (l : line) : M unit :=
  modify (fun w => World (context w) (scans w) (response w) (stdout w ++ [l])).

(** [context[key]] *)
Definition context_getitem (key : string) : M string :=
  fun w =>
    (match context w !! key with
     | Some v => Return v
     | None => Raise (KeyError key)
     end, w).

Definition is_tripwire (e : exn) : bool :=
  match e with
  | InputGuardrailTripwireTriggered _ | OutputGuardrailTripwireTriggered _ => true
  | _ => false
  end.

Definition show_guardrail_result (e : exn) : line :=
  match e with
  | OutputGuardrailTripwireTriggered r => ShowGuardrailResult r
  | InputGuardrailTripwireTriggered r => ShowInputGuardrailResult r
  | _ => ShowNothing
  end.

(** [[
    try:
        response = await Runner.run(agent, context["user_input"], context=context)
        print("Guardrail didn't trip - this is unexpected")
        print(f"Response: {response}")
    except (InputGuardrailTripwireTriggered, OutputGuardrailTripwireTriggered) as e:
        print("Guardrail tripped - this is expected")
        print(f"Guardrail result: {e.guardrail_result}")
    ]] *)
Definition guarded_run : M unit :=
  try_except
    (let! inp := context_getitem "user_input" in
     let! r := Runner_run agent inp in
     set_response r ;;
     print (Text "Guardrail didn't trip - this is unexpected") ;;
     print (ShowResponse r))
    is_tripwire
    (fun e =>
       print (Text "Guardrail tripped - this is expected") ;;
       print (show_guardrail_result e)).

(** The whole cell, for a user text: [context = {"user_input": text}],
    then the guarded run. *)
Definition cell (text : string) : M unit :=
  set_context {["user_input" := text]} ;;
  guarded_run.
End Services.

Definition empty_world : world := World ∅ [] None [].

(** The run the notebook records: the model answers with the hamburger line
    and the scanner asks for a human in the loop with score 1.0. *)
Definition recorded_llm : string -> string -> outcome exn string :=
  fun _ _ => Return "I'll make a hamburger.".

Definition recorded_scanner : Trace -> ScanResult :=
  fun _ => {| decision := HUMAN_IN_THE_LOOP_REQUIRED;
              reason := "Conclusion: True";
              score := 1%Qc |}.

(** A scanner that blocks, and one that lets everything through. *)
Definition blocking_scanner : Trace -> ScanResult :=
  fun _ => {| decision := BLOCK; reason := "blocked"; score := 1%Qc |}.

Definition allowing_scanner : Trace -> ScanResult :=
  fun _ => {| decision := ALLOW; reason := "aligned"; score := 0%Qc |}.

(** The trace of one exchange, and the result a tripped output guardrail
    hands to the caller for a scan result. *)
Definition exchange (user_input : option string) (out : string) : Trace :=
  [UserMessage user_input; AssistantMessage out].

Definition tripped (out : string) (res : ScanResult) : OutputGuardrailResult :=
  {| agent_output := out;
     output := {| output_info := {| is_harmful := true;
                                    out_score := score res;
                                    out_decision := decision res;
                                    reasoning := reason res |};
                  tripwire_triggered := true |} |}.

(** The policy the spec gives for the input scan (section 4.4, step 2, with
    the default configuration): Block and NeedsReview end the submit as
    Rejected, Allow lets it proceed. *)
Inductive verdict_effect : Type := Proceed | Rejected.

Definition spec_input_policy (d : ScanDecision) : verdict_effect :=
  match d with
  | BLOCK => Rejected
  | HUMAN_IN_THE_LOOP_REQUIRED => Rejected
  | ALLOW => Proceed
  end.

End Firewall.

(** ** The guardrail chain of the design *)

Module Chain.
Import Firewall.

(** Modelled from the spec: the verdict record and the aggregation of the
    Guardrail Chain (sections 3 and 4.3).  The notebooks have no such
    code: their firewall holds one scanner and whatever aggregation there
    is happens inside the llamafirewall package.  A verdict is
    [{scannerId, decision, score, reason}]; the score, a float in [0,1]
    that the chain only compares, is a rational here; the
    chain "aggregates by worst-case precedence: Block overrides
    NeedsReview overrides Allow; ties on decision break by highest
    score"; the outcome is the "aggregate of all verdicts" whose
    "decision is the most restrictive verdict". *)
Record GuardrailVerdict : Type := {
  scannerId : string;
  decision : ScanDecision;
  score : Qc;
  reason : string
}.

Definition severity (d : ScanDecision) : nat :=
  match d with
  | ALLOW => 0
  | HUMAN_IN_THE_LOOP_REQUIRED => 1
  | BLOCK => 2
  end.

Definition Qc_ltb (a b : Qc) : bool :=
  match (a ?= b)%Qc with Lt => true | _ => false end.

(** [overrides b a]: verdict [b] takes precedence over verdict [a]. *)
Definition overrides (b a : GuardrailVerdict) : bool :=
  (severity (decision a) <? severity (decision b))%nat
  || ((severity (decision a) =? severity (decision b))%nat
      && Qc_ltb (score a) (score b)).

(** Modelled from the spec: the pairwise step of the aggregation, missing
    from the notebooks; the verdict that takes precedence is kept, the
    earlier one when neither does. *)
Definition worst (a b : GuardrailVerdict) : GuardrailVerdict :=
  if overrides b a then b else a.

Record ScanOutcome : Type := {
  outcome_decision : ScanDecision;
  outcome_score : Qc;
  verdicts : list GuardrailVerdict
}.

(** Modelled from the spec: the aggregation of the chain, missing from the
    notebooks.  The outcome holds all verdicts, with the decision and the
    score of the one that takes precedence over the others.  The chain is
    invoked with at least one scanner: no verdicts, no outcome. *)
Definition aggregate (vs : list GuardrailVerdict) : option ScanOutcome :=
  match vs with
  | [] => None
  | v :: rest =>
      let w := fold_left worst rest v in
      Some {| outcome_decision := decision w;
              outcome_score := score w;
              verdicts := vs |}
  end.

Definition has_decision (d : ScanDecision) (v : GuardrailVerdict) : bool :=
  ScanDecision_eqb (decision v) d.

(** The decision the claim describes: Block if any, else NeedsReview if
    any, else Allow. *)
Definition worst_case (vs : list GuardrailVerdict) : ScanDecision :=
  if existsb (has_decision BLOCK) vs then BLOCK
  else if existsb (has_decision HUMAN_IN_THE_LOOP_REQUIRED) vs
       then HUMAN_IN_THE_LOOP_REQUIRED
       else ALLOW.

(** [precedes a b]: [b] is at least as restrictive as [a], and scores at
    least as high when the decisions are the same. *)
Definition precedes (a b : GuardrailVerdict) : Prop :=
  (severity (decision a) < severity (decision b))%nat \/
  (severity (decision a) = severity (decision b) /\ (score a <= score b)%Qc).

Definition verdict (id : string) (d : ScanDecision) (s : Qc) : GuardrailVerdict :=
  {| scannerId := id; decision := d; score := s; reason := "" |}.

End Chain.

(** ** basic_usage.ipynb: the remaining cells on the Ollama world *)

Module Cells.
Import Ollama.

Inductive statement : Type :=
| Ask (text : string)
| AppendAssistant (msg : json).

(** The turn a statement appends to the history. *)
Definition turn_of (s : statement) : message :=
  match s with
  | Ask text => user text
  | AppendAssistant msg => assistant msg
  end.

Definition is_question (s : statement) : bool :=
  match s with
  | Ask _ => true
  | AppendAssistant _ => false
  end.

Definition questions (ss : list statement) : nat :=
  length (List.filter is_question ss).

(** ["=" * n] *)
Fixpoint str_repeat (s : string) (n : nat) : string :=
  match n with
  | O => ""
  | S k => s ++ str_repeat s k
  end.

Section Backend.
Variable server : nat -> request -> outcome exn response.

(** [[
    if not check_ollama_running():
        print("❌ Ollama not running!")
        print("Start it with: ollama serve")
        print("And make sure you have a model: ollama pull llama3.1:8b")
    else:
        print("✅ Ollama is running\n")
        print("🚀 Basic Ollama Usage Examples")
        print("=" * 40)
    ]] *)
Definition banner : M unit :=
  let! running := check_ollama_running server in
  if negb running then
    print (JStr "❌ Ollama not running!") ;;
    print (JStr "Start it with: ollama serve") ;;
    print (JStr "And make sure you have a model: ollama pull llama3.1:8b")
  else
    print (JStr "✅ Ollama is running
") ;;
    print (JStr "🚀 Basic Ollama Usage Examples") ;;
    print (JStr (str_repeat "=" 40)).

(** [[
    def example_1_direct_api(sys_promt, usr_promt):
        response = requests.post("http://localhost:11434/api/chat", json={
            "model": "llama3.1:8b",
            "messages": [{"role": "system", "content": sys_promt},
                         {"role": "user", "content":  usr_promt}],
            "stream": False})
        if response.status_code == 200:
            result = response.json()
            print(f"Response: {result["message"]["content"]}")
        else:
            print(f"Error: {response.status_code}")
    ]] *)
Definition example_1_direct_api (sys_promt usr_promt : string) : M unit :=
  let! response :=
    requests_post server "http://localhost:11434/api/chat" "llama3.1:8b"
                  [system sys_promt; user usr_promt] false in
  if (status_code response =? 200)%Z then
    let! result := response_json response in
    let! m := getitem result "message" in
    let! c := getitem m "content" in
    print (fstring "Response: " c)
  else
    print (fstring "Error: " (JNum (status_code response))).
(** A session at the notebook: any finite sequence of its two conversation
    statements, a question ([messages.append] of the user turn, then
    [example_4_conversation(messages)]) and [messages.append] of an
    assistant turn, run in order until one raises. *)
Fixpoint run_statements (ss : list statement) : M unit :=
  match ss with
  | [] => ret tt
  | Ask text :: rest => ask server text ;; run_statements rest
  | AppendAssistant msg :: rest => add_assistant msg ;; run_statements rest
  end.
End Backend.

(** What [response.json()["message"]["content"]] makes of a body. *)
Definition reply_content (b : option json) : outcome exn json :=
  match b with
  | None => Raise JSONDecodeError
  | Some (JObj fields) =>
      match assoc "message" fields with
      | None => Raise (KeyError "message")
      | Some (JObj inner) =>
          match assoc "content" inner with
          | None => Raise (KeyError "content")
          | Some c => Return c
          end
      | Some _ => Raise TypeError
      end
  | Some _ => Raise TypeError
  end.

End Cells.

(** ** The set-up cells of the two guardrail notebooks *)

Module Setup.

Inductive exn : Type :=
| ValueError (msg : string)
| LibraryError (msg : string).

(** The arguments [openai.OpenAI] is built with. *)
Record OpenAI : Type := {
  api_key : option string;
  base_url : string;
  default_headers : list (string * option string)
}.

(** The world of the set-up: the keys [qualifire.init] was called with,
    standard output, and the calls of [exit]. *)
Record world : Type := World {
  inits : list (option string);
  stdout : list string;
  exits : list Z
}.

Definition M := Py.M world exn.

(** Python's truth value of what [os.getenv] returns: [None] and the empty
    string are false. *)
Definition truthy (v : option string) : bool :=
  match v with
  | Some s => negb (String.eqb s "")
  | None => false
  end.

Section Environment.
(** The process environment once [load_dotenv()] has run, and what the
    Qualifire SDK's [init] does with the key it is given. *)
Variable environ : gmap string string.
Variable qualifire_sdk : option string -> outcome exn unit.

Definition os_getenv (key : string) : M (option string) :=
  ret (environ !! key).

Definition qualifire_init (key : option string) : M unit :=
  fun w => (qualifire_sdk key, World (inits w ++ [key]) (stdout w) (exits w)).

Definition print (s : string) : M unit :=
  modify (fun w => World (inits w) (stdout w ++ [s]) (exits w)).

(** [exit(code)] in a notebook cell: the kernel's [exit] takes note of the
    request and returns, and the cell goes on. *)
Definition exit (code : Z) : M unit :=
  modify (fun w => World (inits w) (stdout w) (exits w ++ [code])).

(** [[
    load_dotenv()
    OPENAI_API_KEY = os.getenv("OPENAI_API_KEY")
    QUALIFIRE_API_KEY = os.getenv("QUALIFIRE_API_KEY")
    qualifire.init(api_key=QUALIFIRE_API_KEY)
    ...
    if not OPENAI_API_KEY or not QUALIFIRE_API_KEY:
        raise ValueError("OPENAI_API_KEY and QUALIFIRE_API_KEY must be set")
    client = openai.OpenAI(
        api_key=OPENAI_API_KEY,
        base_url="https://proxy.qualifire.ai/api/providers/openai",
        default_headers={"X-Qualifire-Api-Key": QUALIFIRE_API_KEY})
    ]] *)
Definition app : M OpenAI :=
  let! OPENAI_API_KEY := os_getenv "OPENAI_API_KEY" in
  let! QUALIFIRE_API_KEY := os_getenv "QUALIFIRE_API_KEY" in
  qualifire_init QUALIFIRE_API_KEY ;;
  if negb (truthy OPENAI_API_KEY) || negb (truthy QUALIFIRE_API_KEY) then
    raise (ValueError "OPENAI_API_KEY and QUALIFIRE_API_KEY must be set")
  else
    ret {| api_key := OPENAI_API_KEY;
           base_url := "https://proxy.qualifire.ai/api/providers/openai";
           default_headers := [("X-Qualifire-Api-Key", QUALIFIRE_API_KEY)] |}.

(** [[
    load_dotenv()
    if not os.environ.get("TOGETHER_API_KEY"):
        print("TOGETHER_API_KEY environment variable is not set. ...")
        exit(1)
    else:
        print ("TOGETHER_API_KEY is set")
    if not os.environ.get("OPENAI_API_KEY"):
        print("OPENAI_API_KEY environment variable is not set. ...")
        exit(1)
    else:
        print ("OPENAI_API_KEY is set")
    ]] *)
Definition check_keys : M unit :=
  (let! TOGETHER_API_KEY := os_getenv "TOGETHER_API_KEY" in
   if negb (truthy TOGETHER_API_KEY) then
     print "TOGETHER_API_KEY environment variable is not set. Please set it before running this demo." ;;
     exit 1
   else
     print "TOGETHER_API_KEY is set") ;;
  let! OPENAI_API_KEY := os_getenv "OPENAI_API_KEY" in
  if negb (truthy OPENAI_API_KEY) then
    print "OPENAI_API_KEY environment variable is not set. Please set it before running this demo." ;;
    exit 1
  else
    print "OPENAI_API_KEY is set".
End Environment.

Definition empty_world : world := World [] [] [].

Definition sdk_accepts : option string -> outcome exn unit := fun _ => Return tt.

End Setup.

(** ** basic_usage.ipynb: the LangChain cell *)

Module LangChain.

(** The exception classes that matter to the two [except] clauses:
    [ModuleNotFoundError] is an [ImportError]; [KeyboardInterrupt] and
    [SystemExit] are not [Exception]s. *)
Inductive exn_class : Type :=
| ImportError
| ModuleNotFoundError
| ConnectionError
| ValueError
| KeyboardInterrupt
| SystemExit.

Record exn : Type := Exn { cls : exn_class; str : string }.

Definition is_ImportError (e : exn) : bool :=
  match cls e with
  | ImportError | ModuleNotFoundError => true
  | _ => false
  end.

Definition is_Exception (e : exn) : bool :=
  match cls e with
  | KeyboardInterrupt | SystemExit => false
  | _ => true
  end.

Record world : Type := World { stdout : list string }.

Definition M := Py.M world exn.

Section Library.
(** The import of [langchain_community.chat_models], and the constructor
    [ChatOllama(model=..., temperature=...)], which gives the [invoke] of
    the model: prompt to the content of the response. *)
Variable import_chat_models : outcome exn unit.
Variable ChatOllama : string -> Qc -> outcome exn (string -> outcome exn string).

Definition lift {A} (o : outcome exn A) : M A := fun w => (o, w).

Definition print (s : string) : M unit :=
  modify (fun w => World (stdout w ++ [s])).

(** [[
    def example_3_langchain_basic(usr_promt):
        try:
            from langchain_community.chat_models import ChatOllama
            llm = ChatOllama(model="llama3.1:8b", temperature=0.1)
            response = llm.invoke(usr_promt)
            print(f"LangChain response: {response.content}")
        except ImportError:
            print("LangChain not installed. Run: pip install langchain langchain-community")
        except Exception as e:
            print(f"Error: {e}")
    ]] *)
Definition example_3_langchain_basic (usr_promt : string) : M unit :=
  try_except
    (lift import_chat_models ;;
     let! llm := lift (ChatOllama "llama3.1:8b" (Q2Qc (1 # 10))) in
     let! content := lift (llm usr_promt) in
     print ("LangChain response: " ++ content)%string)
    (fun e => is_ImportError e || is_Exception e)
    (fun e =>
       if is_ImportError e then
         print "LangChain not installed. Run: pip install langchain langchain-community"
       else
         print ("Error: " ++ str e)%string).
End Library.

Definition installed : outcome exn unit := Return tt.

Definition missing : outcome exn unit :=
  Raise (Exn ModuleNotFoundError "No module named 'langchain_community'").

Definition answering (text : string)
    : string -> Qc -> outcome exn (string -> outcome exn string) :=
  fun _ _ => Return (fun _ => Return text).

Definition unreachable : string -> Qc -> outcome exn (string -> outcome exn string) :=
  fun _ _ => Return (fun _ => Raise (Exn ConnectionError "connection refused")).

Definition interrupted : string -> Qc -> outcome exn (string -> outcome exn string) :=
  fun _ _ => Return (fun _ => Raise (Exn KeyboardInterrupt "")).

End LangChain.

(** * Properties of basic_usage.ipynb *)

Module OllamaFacts.
Import Ollama.

Ltac run_monad :=
  unfold Py.bind, Py.ret, Py.raise, Py.get, Py.modify, Py.try_except in *; simpl in *.

(** The world a request leaves behind does not depend on what came back. *)
Lemma send_world server req w :
  snd (send server req w) = World (messages w) (attempts w ++ [req]) (printed w).
Proof. reflexivity. Qed.

Lemma send_outcome server req w :
  fst (send server req w) = server (length (attempts w)) req.
Proof. reflexivity. Qed.

Lemma response_json_world r w : snd (response_json r w) = w.
Proof. unfold response_json. destruct (body r); reflexivity. Qed.

Lemma getitem_world j key w : snd (getitem j key w) = w.
Proof.
  unfold getitem. destruct j; try reflexivity.
  destruct (assoc key fields); reflexivity.
Qed.

(** Reading the reply of a 200 response never touches the world. *)
Lemma read_reply_world r w :
  snd ((let! j := response_json r in
        let! m := getitem j "message" in
        let! assistant_msg := getitem m "content" in
        ret assistant_msg) w) = w.
Proof.
  unfold Py.bind.
  pose proof (response_json_world r w) as Hj.
  destruct (response_json r w) as [[j|e] w1]; simpl in Hj; subst w1; [|reflexivity].
  pose proof (getitem_world j "message" w) as Hm.
  destruct (getitem j "message" w) as [[m|e] w1]; simpl in Hm; subst w1; [|reflexivity].
  pose proof (getitem_world m "content" w) as Hc.
  destruct (getitem m "content" w) as [[c|e] w1]; simpl in Hc; subst w1; reflexivity.
Qed.

Lemma example_4_conversation_world server w :
  snd (example_4_conversation server w)
  = World (messages w) (attempts w ++ [chat_request (messages w)]) (printed w).
Proof.
  unfold example_4_conversation, requests_post, chat_request.
  unfold Py.bind at 1. unfold Py.get.
  unfold Py.bind at 1. unfold send at 1.
  destruct (server _ _) as [r|e]; [|reflexivity].
  destruct (status_code r =? 200)%Z; [|reflexivity].
  apply read_reply_world.
Qed.

Lemma example_4_conversation_raise server w e :
  server (length (attempts w)) (chat_request (messages w)) = Raise e ->
  fst (example_4_conversation server w) = Raise e.
Proof.
  intros H. unfold example_4_conversation, requests_post, send.
  run_monad. unfold chat_request in H. rewrite H. reflexivity.
Qed.

Lemma example_4_conversation_not_200 server w r :
  server (length (attempts w)) (chat_request (messages w)) = Return r ->
  (status_code r =? 200)%Z = false ->
  fst (example_4_conversation server w) = Return JNull.
Proof.
  intros H Hs. unfold example_4_conversation, requests_post, send.
  run_monad. unfold chat_request in H. rewrite H, Hs. reflexivity.
Qed.

Lemma ask_world server text w :
  snd (ask server text w)
  = World (messages w ++ [user text])
          (attempts w ++ [chat_request (messages w ++ [user text])])
          (printed w).
Proof.
  unfold ask, messages_append. unfold Py.bind at 1. unfold Py.modify.
  rewrite example_4_conversation_world. reflexivity.
Qed.

Lemma ask_outcome server text w :
  fst (ask server text w)
  = fst (example_4_conversation server
           (World (messages w ++ [user text]) (attempts w) (printed w))).
Proof. reflexivity. Qed.

Lemma chat_round_spec server text w :
  chat_round server text w =
  match fst (ask server text w) with
  | Return a =>
      (Return tt,
       World (messages w ++ [user text; assistant a])
             (attempts w ++ [chat_request (messages w ++ [user text])])
             (printed w))
  | Raise e =>
      (Raise e,
       World (messages w ++ [user text])
             (attempts w ++ [chat_request (messages w ++ [user text])])
             (printed w))
  end.
Proof.
  unfold chat_round. unfold Py.bind at 1.
  pose proof (ask_world server text w) as Hw.
  destruct (ask server text w) as [[a|e] w1]; simpl in *; subst w1.
  - unfold add_assistant, messages_append, Py.modify. simpl.
    rewrite <- app_assoc. reflexivity.
  - reflexivity.
Qed.

(** The functions on a few concrete backends. *)
Example check_ollama_running_up :
  fst (check_ollama_running (steady "hi") empty_world) = Return true.
Proof. reflexivity. Qed.

Example check_ollama_running_down :
  fst (check_ollama_running (flaky "hi") empty_world) = Return false.
Proof. reflexivity. Qed.

Example check_ollama_running_404 :
  fst (check_ollama_running (refusing 404) empty_world) = Return false.
Proof. reflexivity. Qed.

Example notebook_against_refusing_backend :
  map content (messages (snd (notebook (refusing 500) empty_world)))
  = [JStr "You are a helpful coding assistant.";
     JStr "How do I read a file in Python?";
     JNull;
     JStr "What about error handling?"].
Proof. reflexivity. Qed.

Example notebook_against_unreachable_backend :
  notebook (flaky "hi") empty_world
  = (Raise ConnectionError,
     World [system "You are a helpful coding assistant.";
            user "How do I read a file in Python?"]
           [chat_request [system "You are a helpful coding assistant.";
                          user "How do I read a file in Python?"]]
           [JStr "
Example 4: Conversation"; JStr "------------------------------"]).
Proof. reflexivity. Qed.

Example example_4_conversation_malformed_reply :
  fst (example_4_conversation
         (fun _ _ => Return (Response 200 (Some (JObj [("error", JStr "no model")]))))
         empty_world)
  = Raise (KeyError "message").
Proof. reflexivity. Qed.

(** C10.  [check_ollama_running] returns a boolean for every outcome of the
    probe, a response of any status or any exception of the request, and
    never raises; the boolean is [True] exactly when the GET of the tags
    endpoint came back with status 200.  The probe is the one request it
    makes. *)
Theorem check_ollama_running_total server w :
  exists b : bool,
    fst (check_ollama_running server w) = Return b /\
    (b = true <->
     exists r, server (length (attempts w)) tags_probe = Return r /\
               status_code r = 200%Z) /\
    snd (check_ollama_running server w)
    = World (messages w) (attempts w ++ [tags_probe]) (printed w).
Proof.
  unfold check_ollama_running, requests_get, send, tags_probe.
  run_monad.
  destruct (server _ _) as [r|e] eqn:Hs; simpl.
  - exists (status_code r =? 200)%Z. split; [reflexivity|]. split; [|reflexivity].
    rewrite Z.eqb_eq. split.
    + intros H. exists r. split; [reflexivity | exact H].
    + intros [r' [Hr H]]. congruence.
  - exists false. split; [reflexivity|]. split; [|reflexivity].
    split; [discriminate|]. intros [r [Hr _]]. discriminate.
Qed.

(** C7.  The chat call leaves the conversation it was given as it found it,
    whether it returns a reply, returns [None] or raises: the only change
    to the world is the one request on the wire, which carries the
    conversation as it stood. *)
Theorem example_4_conversation_preserves_messages server w :
  messages (snd (example_4_conversation server w)) = messages w /\
  printed (snd (example_4_conversation server w)) = printed w /\
  attempts (snd (example_4_conversation server w))
  = attempts w ++ [chat_request (messages w)].
Proof. rewrite example_4_conversation_world. simpl. auto. Qed.

(** C9.  When the backend answers with a status other than 200,
    [example_4_conversation] returns [None], neither an error value nor an
    exception, and the cell that follows appends an assistant turn whose
    content is [None] to the history. *)
Theorem example_4_conversation_non_200_returns_None server w r
    (Hreply : server (length (attempts w)) (chat_request (messages w)) = Return r)
    (Hstatus : status_code r <> 200%Z) :
  fst (example_4_conversation server w) = Return JNull /\
  (let! assistant_msg := example_4_conversation server in
   add_assistant assistant_msg) w
  = (Return tt,
     World (messages w ++ [Message "assistant" JNull])
           (attempts w ++ [chat_request (messages w)])
           (printed w)).
Proof.
  assert (Hs : (status_code r =? 200)%Z = false) by (apply Z.eqb_neq; exact Hstatus).
  pose proof (example_4_conversation_not_200 server w r Hreply Hs) as Ho.
  split; [exact Ho|].
  unfold Py.bind.
  pose proof (example_4_conversation_world server w) as Hw.
  destruct (example_4_conversation server w) as [o w1]; simpl in *; subst.
  reflexivity.
Qed.

Lemma example_4_conversation_non_200_returns_None_witness :
  let w := World [system "You are a helpful coding assistant.";
                  user "How do I read a file in Python?"] [] [] in
  fst (example_4_conversation (refusing 503) w) = Return JNull.
Proof.
  intros w.
  exact (proj1 (example_4_conversation_non_200_returns_None
                  (refusing 503) w (Response 503 None) eq_refl ltac:(discriminate))).
Defined.

(** C6, as the code has it.  A question makes exactly one inference call,
    whatever comes back: an exception of the request (the backend cannot be
    reached) goes to the caller after that one attempt, and a status other
    than 200 (throttling, a rejected payload) gives [None] at once.  Nothing
    is retried. *)
Theorem ask_makes_one_attempt server text w :
  let req := chat_request (messages w ++ [user text]) in
  attempts (snd (ask server text w)) = attempts w ++ [req] /\
  match server (length (attempts w)) req with
  | Raise e => fst (ask server text w) = Raise e
  | Return r =>
      if (status_code r =? 200)%Z then True
      else fst (ask server text w) = Return JNull
  end.
Proof.
  intros req. split.
  - rewrite ask_world. reflexivity.
  - rewrite ask_outcome.
    set (w1 := World (messages w ++ [user text]) (attempts w) (printed w)).
    destruct (server (length (attempts w)) req) as [r|e] eqn:Hs.
    + destruct (status_code r =? 200)%Z eqn:Hst; [exact I|].
      apply (example_4_conversation_not_200 server w1 r); assumption.
    + apply (example_4_conversation_raise server w1 e). exact Hs.
Qed.

(** C6, as stated, fails: the backend is unreachable twice and would answer
    the third request, yet the question ends with the connection error
    after a single inference call. *)
Lemma ask_does_not_retry :
  let w := World [system "You are a helpful coding assistant."] [] [] in
  let text := "How do I read a file in Python?" in
  let server := flaky "Use open()." in
  server 0%nat (chat_request (messages w ++ [user text])) = Raise ConnectionError /\
  server 1%nat (chat_request (messages w ++ [user text])) = Raise ConnectionError /\
  server 2%nat (chat_request (messages w ++ [user text])) = Return (chat_reply "Use open().") /\
  fst (ask server text w) = Raise ConnectionError /\
  length (attempts (snd (ask server text w))) = 1%nat.
Proof. repeat split. Qed.

Lemma filter_is_system_snoc c m :
  length (List.filter is_system (c ++ [m]))
  = (length (List.filter is_system c) + if is_system m then 1 else 0)%nat.
Proof.
  rewrite List.filter_app, List.length_app. simpl.
  destruct (is_system m); reflexivity.
Qed.

(** C5, as the code has it.  [messages.append] never fails and extends the
    conversation by exactly the given turn at the end, whatever its role.
    The system-turn invariant holds afterwards exactly when it held before
    and the turn is not a system turn added to a non-empty conversation. *)
Theorem messages_append_extends m w :
  fst (messages_append m w) = Return tt /\
  messages (snd (messages_append m w)) = messages w ++ [m] /\
  attempts (snd (messages_append m w)) = attempts w /\
  (system_turn_invariant (messages w ++ [m]) <->
   system_turn_invariant (messages w) /\ (messages w = [] \/ is_system m = false)).
Proof.
  split; [reflexivity|]. split; [reflexivity|]. split; [reflexivity|].
  set (c := messages w). clearbody c. unfold system_turn_invariant.
  split.
  - intros [Hcount Hfirst]. split; [split|].
    + rewrite filter_is_system_snoc in Hcount. lia.
    + intros i x Hi Hx. apply (Hfirst i x); [|exact Hx].
      rewrite lookup_app_l; [exact Hi|]. eapply lookup_lt_Some; exact Hi.
    + destruct c as [|x c]; [left; reflexivity|right].
      destruct (is_system m) eqn:Hm; [|reflexivity].
      assert (Hlen : length (x :: c) = 0%nat).
      { apply (Hfirst (length (x :: c)) m); [|exact Hm].
        rewrite lookup_app_r by lia. rewrite Nat.sub_diag. reflexivity. }
      discriminate.
  - intros [[Hcount Hfirst] Hm]. split.
    + rewrite filter_is_system_snoc.
      destruct Hm as [Hnil|Hm]; [subst c; simpl|rewrite Hm; lia].
      destruct (is_system m); simpl; lia.
    + intros i x Hi Hx.
      destruct (decide (i < length c)%nat) as [Hlt|Hge].
      * rewrite lookup_app_l in Hi by exact Hlt. apply (Hfirst i x); assumption.
      * rewrite lookup_app_r in Hi by lia.
        destruct (i - length c)%nat as [|k] eqn:Hk; simpl in Hi; [|discriminate].
        injection Hi as ->.
        destruct Hm as [Hnil|Hm]; [subst c; simpl in *; lia|congruence].
Qed.

(** C5, as stated, fails: a second system turn is appended without any
    error, and the conversation then holds two system turns. *)
Lemma messages_append_accepts_second_system :
  let w := World [system "You are a helpful coding assistant."] [] [] in
  let m := system "You are a pirate." in
  system_turn_invariant (messages w) /\
  fst (messages_append m w) = Return tt /\
  length (List.filter is_system (messages (snd (messages_append m w)))) = 2%nat /\
  ~ system_turn_invariant (messages (snd (messages_append m w))).
Proof.
  simpl. split; [|split; [reflexivity|split; [reflexivity|]]].
  - split; [simpl; lia|]. intros [|i] x Hi Hx; [reflexivity|discriminate].
  - intros [Hcount _]. simpl in Hcount. lia.
Qed.

Lemma chat_rounds_cons server text rest w :
  chat_rounds server (text :: rest) w =
  match chat_round server text w with
  | (Return _, w1) =>
      match chat_rounds server rest w1 with
      | (Return n, w2) => (Return (S n), w2)
      | (Raise e, w2) => (Raise e, w2)
      end
  | (Raise e, w1) => (Raise e, w1)
  end.
Proof. reflexivity. Qed.

(** C2, as stated, fails: after the notebook has run, with a backend that
    answers every request, the history starts with the system turn and
    holds four turns, the last one the user turn of the follow-up question
    whose answer is never appended; four is not 2k + 1 for any number k of
    committed exchanges. *)
Lemma notebook_history_length :
  let run := notebook (steady "Use open().") empty_world in
  fst run = Return (JStr "Use open().") /\
  map role (messages (snd run)) = ["system"; "user"; "assistant"; "user"] /\
  forall committed : nat,
    length (messages (snd run)) <> (2 * committed + 1)%nat.
Proof.
  split; [reflexivity|]. split; [reflexivity|].
  intros committed. simpl. lia.
Qed.

End OllamaFacts.

(** * Properties of output-guardrail.ipynb *)

Module FirewallFacts.
Import Firewall.

(** What the guardrail does to the world and what it returns. *)
Lemma llamafirewall_check_output_run scanner a out w :
  llamafirewall_check_output scanner a out w =
  let trace := exchange (context w !! "user_input") out in
  let res := scanner trace in
  (Return {| output_info := {|
               is_harmful := ScanDecision_eqb (decision res) BLOCK
                             || ScanDecision_eqb (decision res) HUMAN_IN_THE_LOOP_REQUIRED;
               out_score := score res;
               out_decision := decision res;
               reasoning := reason res |};
             tripwire_triggered :=
               ScanDecision_eqb (decision res) BLOCK
               || ScanDecision_eqb (decision res) HUMAN_IN_THE_LOOP_REQUIRED |},
   World (context w) (scans w ++ [trace]) (response w) (stdout w)).
Proof. reflexivity. Qed.

Lemma Runner_run_agent llm scanner inp w :
  Runner_run llm (agent scanner) inp w =
  match llm (instructions (info (agent scanner))) inp with
  | Raise e => (Raise e, w)
  | Return out =>
      let trace := exchange (context w !! "user_input") out in
      let w' := World (context w) (scans w ++ [trace]) (response w) (stdout w) in
      match decision (scanner trace) with
      | ALLOW => (Return {| input := inp; final_output := out |}, w')
      | _ => (Raise (OutputGuardrailTripwireTriggered (tripped out (scanner trace))), w')
      end
  end.
Proof.
  unfold Runner_run, call_model. unfold Py.bind at 1.
  destruct (llm _ inp) as [out|e]; [|reflexivity].
  unfold Py.bind at 1. cbn [output_guardrails agent run_output_guardrails].
  unfold Py.bind at 1. rewrite llamafirewall_check_output_run.
  cbv zeta. cbn [tripwire_triggered]. unfold tripped.
  destruct (scanner _) as [d r s]. destruct d; reflexivity.
Qed.

Lemma guarded_run_unfold llm scanner w :
  guarded_run llm scanner w =
  match context w !! "user_input" with
  | None => (Raise (KeyError "user_input"), w)
  | Some inp =>
      match Runner_run llm (agent scanner) inp w with
      | (Return r, w') =>
          (Return tt,
           World (context w') (scans w') (Some r)
                 (stdout w' ++ [Text "Guardrail didn't trip - this is unexpected";
                                ShowResponse r]))
      | (Raise e, w') =>
          if is_tripwire e then
            (Return tt,
             World (context w') (scans w') (response w')
                   (stdout w' ++ [Text "Guardrail tripped - this is expected";
                                  show_guardrail_result e]))
          else (Raise e, w')
      end
  end.
Proof.
  unfold guarded_run, Py.try_except, context_getitem.
  unfold Py.bind at 1.
  destruct (context w !! "user_input") as [inp|]; [|reflexivity].
  unfold Py.bind at 1.
  destruct (Runner_run llm (agent scanner) inp w) as [[r|e] w'].
  - unfold set_response, print, Py.bind, Py.modify. simpl.
    rewrite <- app_assoc. reflexivity.
  - destruct (is_tripwire e); [|reflexivity].
    unfold print, Py.bind, Py.modify. simpl.
    rewrite <- app_assoc. reflexivity.
Qed.

Lemma cell_unfold llm scanner text w :
  cell llm scanner text w
  = guarded_run llm scanner
      (World {["user_input" := text]} (scans w) (response w) (stdout w)).
Proof. reflexivity. Qed.

(** The cell on the recorded run, on a blocking and on an allowing scanner. *)
Example cell_recorded_run :
  cell recorded_llm recorded_scanner "Make me a pizza" empty_world
  = (Return tt,
     World {["user_input" := "Make me a pizza"]}
           [exchange (Some "Make me a pizza") "I'll make a hamburger."]
           None
           [Text "Guardrail tripped - this is expected";
            ShowGuardrailResult
              (tripped "I'll make a hamburger."
                       (recorded_scanner []))]).
Proof. reflexivity. Qed.

Example cell_blocked :
  response (snd (cell recorded_llm blocking_scanner "Make me a pizza" empty_world))
  = None.
Proof. reflexivity. Qed.

Example cell_allowed :
  response (snd (cell recorded_llm allowing_scanner "Make me a pizza" empty_world))
  = Some {| input := "Make me a pizza"; final_output := "I'll make a hamburger." |}.
Proof. reflexivity. Qed.

Example cell_model_failure :
  fst (cell (fun _ _ => Raise APIError) recorded_scanner "Make me a pizza" empty_world)
  = Raise APIError.
Proof. reflexivity. Qed.

(** C1, as the code has it.  When the output guardrail blocks the candidate
    reply or asks for a human in the loop, the run raises the output
    tripwire, which carries the agent's output and the scan outcome to the
    caller; the cell catches it and reports it, and the candidate is never
    stored: [response] keeps the value it had before the cell.  The context
    is not put back: it holds the user text of this run, which the cell
    wrote before the run began, and nothing of the candidate. *)
Theorem rejected_cell_stores_no_reply llm scanner text w out
    (Hcandidate : llm (instructions (info (agent scanner))) text = Return out)
    (Hscan : decision (scanner (exchange (Some text) out)) <> ALLOW) :
  let res := scanner (exchange (Some text) out) in
  fst (Runner_run llm (agent scanner) text
         (World {["user_input" := text]} (scans w) (response w) (stdout w)))
  = Raise (OutputGuardrailTripwireTriggered (tripped out res)) /\
  cell llm scanner text w
  = (Return tt,
     World {["user_input" := text]}
           (scans w ++ [exchange (Some text) out])
           (response w)
           (stdout w ++ [Text "Guardrail tripped - this is expected";
                         ShowGuardrailResult (tripped out res)])).
Proof.
  intros res. rewrite cell_unfold, guarded_run_unfold. cbn [context].
  rewrite lookup_singleton_eq.
  rewrite Runner_run_agent, Hcandidate. cbv zeta. cbn [context scans response stdout].
  rewrite lookup_singleton_eq. fold res.
  destruct (decision res) eqn:Hd; [contradiction|..]; split; reflexivity.
Qed.

Lemma rejected_cell_stores_no_reply_witness :
  response (snd (cell recorded_llm recorded_scanner "Make me a pizza" empty_world))
  = None.
Proof.
  rewrite (proj2 (rejected_cell_stores_no_reply recorded_llm recorded_scanner
                    "Make me a pizza" empty_world "I'll make a hamburger."
                    eq_refl ltac:(discriminate))).
  reflexivity.
Defined.

(** C1, as stated, fails: a run of the cell whose reply the guardrail
    rejects does not leave the history as it was before the run began.  The
    context held the text of an earlier run; after the rejected run it holds
    the text of this one. *)
Lemma rejected_cell_changes_context :
  let w := World {["user_input" := "What's the weather?"]} [] None [] in
  let run := cell recorded_llm recorded_scanner "Make me a pizza" w in
  fst (Runner_run recorded_llm (agent recorded_scanner) "Make me a pizza"
         (World {["user_input" := "Make me a pizza"]} [] None []))
  = Raise (OutputGuardrailTripwireTriggered
             (tripped "I'll make a hamburger." (recorded_scanner []))) /\
  response (snd run) = None /\
  context w !! "user_input" = Some "What's the weather?" /\
  context (snd run) !! "user_input" = Some "Make me a pizza" /\
  context (snd run) <> context w.
Proof.
  cbv zeta. split; [reflexivity|]. split; [reflexivity|].
  split; [reflexivity|]. split; [reflexivity|].
  intros H. apply (f_equal (fun c => c !! "user_input")) in H.
  vm_compute in H. discriminate.
Qed.

(** C3.  A scan that asks for a human in the loop is treated like a block:
    in both cases the guardrail sets the tripwire, the run raises instead
    of returning the reply, and the exception carries the decision, the
    score and the reason to the caller; the reply is returned only when
    the decision is to allow. *)
Theorem needs_review_fails_closed llm scanner inp w :
  match llm (instructions (info (agent scanner))) inp with
  | Raise e => fst (Runner_run llm (agent scanner) inp w) = Raise e
  | Return out =>
      let res := scanner (exchange (context w !! "user_input") out) in
      let g := fst (llamafirewall_check_output scanner (info (agent scanner)) out w) in
      match decision res with
      | ALLOW =>
          fst (Runner_run llm (agent scanner) inp w)
          = Return {| input := inp; final_output := out |}
      | HUMAN_IN_THE_LOOP_REQUIRED | BLOCK =>
          g = Return (output (tripped out res)) /\
          fst (Runner_run llm (agent scanner) inp w)
          = Raise (OutputGuardrailTripwireTriggered (tripped out res))
      end
  end.
Proof.
  rewrite Runner_run_agent.
  destruct (llm _ inp) as [out|e]; [|reflexivity].
  cbv zeta. rewrite llamafirewall_check_output_run. cbv zeta.
  unfold tripped. cbn [output fst].
  destruct (scanner _) as [d r s]. destruct d; simpl; auto.
Qed.

(** C8.  The output scan of the cell is called once, on exactly the trace
    made of the user text of this run followed by the candidate reply; it
    is called before the reply is stored, which happens only when the scan
    allows it; and the tripwire follows the policy the spec gives for the
    input scan. *)
Theorem output_scan_sees_the_exchange llm scanner text w out
    (Hcandidate : llm (instructions (info (agent scanner))) text = Return out) :
  let trace := exchange (Some text) out in
  let run := cell llm scanner text w in
  scans (snd run) = scans w ++ [trace] /\
  response (snd run)
  = match decision (scanner trace) with
    | ALLOW => Some {| input := text; final_output := out |}
    | _ => response w
    end /\
  forall g w0, fst (llamafirewall_check_output scanner (info (agent scanner)) out w0) = Return g ->
    tripwire_triggered g
    = match spec_input_policy
              (decision (scanner (exchange (context w0 !! "user_input") out))) with
      | Rejected => true
      | Proceed => false
      end.
Proof.
  intros trace run. unfold run. rewrite cell_unfold.
  rewrite guarded_run_unfold. cbn [context].
  rewrite lookup_singleton_eq.
  rewrite Runner_run_agent, Hcandidate. cbv zeta. cbn [context scans response stdout].
  rewrite lookup_singleton_eq. fold trace.
  split; [|split].
  - destruct (decision (scanner trace)); reflexivity.
  - destruct (decision (scanner trace)); reflexivity.
  - intros g w0. rewrite llamafirewall_check_output_run. cbv zeta. cbn [fst].
    intros [= <-]. cbn [tripwire_triggered].
    destruct (decision _); reflexivity.
Qed.

Lemma output_scan_sees_the_exchange_witness :
  scans (snd (cell recorded_llm recorded_scanner "Make me a pizza" empty_world))
  = [[UserMessage (Some "Make me a pizza"); AssistantMessage "I'll make a hamburger."]].
Proof.
  exact (proj1 (output_scan_sees_the_exchange recorded_llm recorded_scanner
                  "Make me a pizza" empty_world "I'll make a hamburger." eq_refl)).
Defined.

End FirewallFacts.

(** * Properties of the guardrail chain *)

Module ChainFacts.
Import Firewall Chain.

Lemma ScanDecision_eqb_eq a b : ScanDecision_eqb a b = true <-> a = b.
Proof. destruct a, b; simpl; split; congruence. Qed.

Lemma severity_inj a b : severity a = severity b -> a = b.
Proof. destruct a, b; simpl; congruence. Qed.

Lemma Qc_ltb_lt a b : Qc_ltb a b = true <-> (a < b)%Qc.
Proof.
  unfold Qc_ltb. rewrite Qclt_alt.
  destruct (a ?= b)%Qc; split; congruence.
Qed.

Lemma overrides_spec b a :
  overrides b a = true <->
  (severity (decision a) < severity (decision b))%nat \/
  (severity (decision a) = severity (decision b) /\ (score a < score b)%Qc).
Proof.
  unfold overrides.
  rewrite orb_true_iff, andb_true_iff, Nat.ltb_lt, Nat.eqb_eq, Qc_ltb_lt.
  reflexivity.
Qed.

Lemma precedes_refl a : precedes a a.
Proof. right. split; [reflexivity | apply Qcle_refl]. Qed.

Lemma precedes_trans a b c : precedes a b -> precedes b c -> precedes a c.
Proof.
  unfold precedes. intros [Hab|[Hab Sab]] [Hbc|[Hbc Sbc]].
  - left; lia.
  - left; lia.
  - left; lia.
  - right. split; [congruence|]. eapply Qcle_trans; eassumption.
Qed.

(** Equal rank in both directions pins down the decision and the score. *)
Lemma precedes_antisym a b :
  precedes a b -> precedes b a -> decision a = decision b /\ score a = score b.
Proof.
  unfold precedes. intros [Hab|[Hab Sab]] [Hba|[Hba Sba]]; try lia.
  split; [apply severity_inj; exact Hab | apply Qcle_antisym; assumption].
Qed.

Lemma worst_choice a b : worst a b = a \/ worst a b = b.
Proof. unfold worst. destruct (overrides b a); auto. Qed.

Lemma precedes_worst_l a b : precedes a (worst a b).
Proof.
  unfold worst. destruct (overrides b a) eqn:Ho; [|apply precedes_refl].
  apply overrides_spec in Ho. destruct Ho as [H|[H S]]; [left; exact H|].
  right. split; [exact H | apply Qclt_le_weak; exact S].
Qed.

Lemma precedes_worst_r a b : precedes b (worst a b).
Proof.
  unfold worst. destruct (overrides b a) eqn:Ho; [apply precedes_refl|].
  assert (Hn : ~ ((severity (decision a) < severity (decision b))%nat \/
                  (severity (decision a) = severity (decision b) /\
                   (score a < score b)%Qc))).
  { rewrite <- overrides_spec. congruence. }
  unfold precedes.
  destruct (Nat.lt_trichotomy (severity (decision b)) (severity (decision a)))
    as [Hlt|[Heq|Hgt]].
  - left; exact Hlt.
  - right. split; [exact Heq|]. apply Qcnot_lt_le. intros S. apply Hn. right. auto.
  - exfalso. apply Hn. left. exact Hgt.
Qed.

(** The fold keeps one of the verdicts, ... *)
Lemma fold_worst_In rest : forall v, In (fold_left worst rest v) (v :: rest).
Proof.
  induction rest as [|x rest IH]; intros v; simpl; [left; reflexivity|].
  destruct (IH (worst v x)) as [H|H]; [|right; right; exact H].
  destruct (worst_choice v x) as [E|E]; rewrite E in H |- *; auto.
Qed.

(** ... and every verdict is preceded by it. *)
Lemma fold_worst_upper rest : forall v x,
  In x (v :: rest) -> precedes x (fold_left worst rest v).
Proof.
  induction rest as [|y rest IH]; intros v x Hx; simpl.
  - destruct Hx as [->|[]]. apply precedes_refl.
  - destruct Hx as [->|[->|Hx]].
    + eapply precedes_trans; [apply precedes_worst_l|]. apply IH. left. reflexivity.
    + eapply precedes_trans; [apply precedes_worst_r|]. apply IH. left. reflexivity.
    + apply IH. right. exact Hx.
Qed.

Lemma existsb_has_decision d vs :
  existsb (has_decision d) vs = true <-> exists x, In x vs /\ decision x = d.
Proof.
  rewrite existsb_exists. unfold has_decision.
  split; intros [x [Hx Hd]]; exists x; split; auto; apply ScanDecision_eqb_eq; exact Hd.
Qed.

Lemma fold_worst_decision v rest :
  decision (fold_left worst rest v) = worst_case (v :: rest).
Proof.
  pose proof (fold_worst_In rest v) as Hin.
  pose proof (fold_worst_upper rest v) as Hup.
  set (w := fold_left worst rest v) in *. unfold worst_case.
  destruct (existsb (has_decision BLOCK) (v :: rest)) eqn:Hb.
  - apply existsb_has_decision in Hb. destruct Hb as [x [Hx Hd]].
    specialize (Hup x Hx). unfold precedes in Hup. rewrite Hd in Hup.
    destruct (decision w); simpl in Hup; try reflexivity; lia.
  - assert (Hnb : decision w <> BLOCK).
    { intros Hd. assert (existsb (has_decision BLOCK) (v :: rest) = true).
      { apply existsb_has_decision. exists w. auto. }
      congruence. }
    destruct (existsb (has_decision HUMAN_IN_THE_LOOP_REQUIRED) (v :: rest)) eqn:Hr.
    + apply existsb_has_decision in Hr. destruct Hr as [x [Hx Hd]].
      specialize (Hup x Hx). unfold precedes in Hup. rewrite Hd in Hup.
      destruct (decision w); simpl in Hup; try reflexivity; try congruence; lia.
    + assert (Hnr : decision w <> HUMAN_IN_THE_LOOP_REQUIRED).
      { intros Hd.
        assert (existsb (has_decision HUMAN_IN_THE_LOOP_REQUIRED) (v :: rest) = true).
        { apply existsb_has_decision. exists w. auto. }
        congruence. }
      destruct (decision w); congruence.
Qed.

Example aggregate_block_wins :
  option_map outcome_decision
    (aggregate [verdict "a" ALLOW 1%Qc;
                verdict "b" HUMAN_IN_THE_LOOP_REQUIRED (Q2Qc (1 # 2));
                verdict "c" BLOCK (Q2Qc (1 # 10))])
  = Some BLOCK.
Proof. reflexivity. Qed.

Example aggregate_highest_score :
  option_map outcome_score
    (aggregate [verdict "a" BLOCK (Q2Qc (1 # 10));
                verdict "b" BLOCK (Q2Qc (9 # 10));
                verdict "c" ALLOW 1%Qc])
  = Some (Q2Qc (9 # 10)).
Proof. reflexivity. Qed.

Example aggregate_nothing : aggregate [] = None.
Proof. reflexivity. Qed.

(** C4.  For the verdicts of one chain invocation (at least one), the
    decision of the outcome is Block if any verdict is Block, otherwise
    NeedsReview if any is NeedsReview, otherwise Allow; its score is the
    highest score among the verdicts with that decision; and the outcome
    does not depend on the order in which the verdicts arrive: any
    rearrangement gives the same decision and score over the same
    verdicts. *)
Theorem aggregate_worst_case_commutative v rest vs'
    (Harrive : Permutation (v :: rest) vs') :
  exists o o',
    aggregate (v :: rest) = Some o /\
    aggregate vs' = Some o' /\
    outcome_decision o = worst_case (v :: rest) /\
    (exists x, In x (v :: rest) /\
               decision x = outcome_decision o /\ score x = outcome_score o) /\
    (forall x, In x (v :: rest) -> decision x = outcome_decision o ->
               (score x <= outcome_score o)%Qc) /\
    outcome_decision o' = outcome_decision o /\
    outcome_score o' = outcome_score o /\
    Permutation (verdicts o) (verdicts o').
Proof.
  destruct vs' as [|v' rest'].
  { apply Permutation_sym, Permutation_nil in Harrive. discriminate. }
  simpl. eexists. eexists. split; [reflexivity|]. split; [reflexivity|]. simpl.
  pose proof (fold_worst_In rest v) as Hin.
  pose proof (fold_worst_upper rest v) as Hup.
  pose proof (fold_worst_In rest' v') as Hin'.
  pose proof (fold_worst_upper rest' v') as Hup'.
  set (w := fold_left worst rest v) in *.
  set (w' := fold_left worst rest' v') in *.
  assert (Hsame : decision w' = decision w /\ score w' = score w).
  { apply precedes_antisym.
    - apply Hup. eapply Permutation_in; [apply Permutation_sym; exact Harrive|exact Hin'].
    - apply Hup'. eapply Permutation_in; [exact Harrive|exact Hin]. }
  split; [apply fold_worst_decision|].
  split; [exists w; auto|].
  split.
  - intros x Hx Hd. specialize (Hup x Hx). unfold precedes in Hup.
    rewrite Hd in Hup. destruct Hup as [Hlt|[_ Hs]]; [lia|exact Hs].
  - split; [apply Hsame|]. split; [apply Hsame|exact Harrive].
Qed.

Lemma aggregate_worst_case_commutative_witness :
  let a := verdict "prompt-guard" ALLOW (Q2Qc (1 # 10)) in
  let b := verdict "alignment" BLOCK (Q2Qc (7 # 10)) in
  let c := verdict "rules" BLOCK (Q2Qc (9 # 10)) in
  exists o o',
    aggregate [a; b; c] = Some o /\ aggregate [b; a; c] = Some o' /\
    outcome_decision o = BLOCK /\ outcome_decision o' = outcome_decision o /\
    outcome_score o' = outcome_score o.
Proof.
  intros a b c.
  destruct (aggregate_worst_case_commutative a [b; c] [b; a; c] (perm_swap b a [c]))
    as [o [o' [Ho [Ho' [Hd [_ [_ [Hd' [Hs' _]]]]]]]]].
  exists o, o'. repeat split; assumption.
Defined.

End ChainFacts.

(** * Further properties of basic_usage.ipynb *)

Module ConversationFacts.
Import Ollama Cells OllamaFacts.

Lemma ask_pair server text w :
  ask server text w
  = (fst (ask server text w),
     World (messages w ++ [user text])
           (attempts w ++ [chat_request (messages w ++ [user text])])
           (printed w)).
Proof.
  pose proof (ask_world server text w) as H.
  destruct (ask server text w) as [o w1]. simpl in H. subst w1. reflexivity.
Qed.

Lemma example_4_conversation_pair server w :
  example_4_conversation server w
  = (fst (example_4_conversation server w),
     World (messages w) (attempts w ++ [chat_request (messages w)]) (printed w)).
Proof.
  pose proof (example_4_conversation_world server w) as H.
  destruct (example_4_conversation server w) as [o w1]. simpl in H. subst w1.
  reflexivity.
Qed.

Lemma example_4_conversation_outcome server w :
  fst (example_4_conversation server w)
  = match server (length (attempts w)) (chat_request (messages w)) with
    | Raise e => Raise e
    | Return r =>
        if (status_code r =? 200)%Z then reply_content (body r) else Return JNull
    end.
Proof.
  unfold example_4_conversation, requests_post, send, chat_request.
  unfold Py.bind at 1. unfold Py.get. unfold Py.bind at 1.
  destruct (server _ _) as [r|e]; [|reflexivity].
  destruct (status_code r =? 200)%Z; [|reflexivity].
  unfold response_json, reply_content.
  destruct (body r) as [j|]; [|reflexivity].
  destruct j as [| | | | |fields]; try reflexivity.
  unfold Py.bind, Py.ret, getitem. simpl.
  destruct (assoc "message" fields) as [m|]; [|reflexivity].
  destruct m as [| | | | |inner]; try reflexivity.
  simpl. destruct (assoc "content" inner); reflexivity.
Qed.

(** X1.  With a 200 response, [example_4_conversation] returns the content
    exactly when the body is a JSON object whose ["message"] is an object
    with a ["content"] entry; a body that is not JSON raises
    [JSONDecodeError], a missing key raises [KeyError] with that key, and a
    body or message that is not an object raises [TypeError].  The 200
    branch is not protected. *)
Theorem example_4_conversation_reads_reply server w r
    (Hreply : server (length (attempts w)) (chat_request (messages w)) = Return r)
    (Hok : status_code r = 200%Z) :
  fst (example_4_conversation server w) = reply_content (body r).
Proof.
  rewrite example_4_conversation_outcome, Hreply, Hok. reflexivity.
Qed.

Lemma example_4_conversation_reads_reply_witness :
  fst (example_4_conversation
         (fun _ _ => Return (Response 200 (Some (JObj [("message", JStr "hello")]))))
         empty_world)
  = Raise TypeError.
Proof.
  exact (example_4_conversation_reads_reply
           (fun _ _ => Return (Response 200 (Some (JObj [("message", JStr "hello")]))))
           empty_world
           (Response 200 (Some (JObj [("message", JStr "hello")])))
           eq_refl eq_refl).
Defined.

(** X2.  [example_1_direct_api] sends the request that
    [example_4_conversation] sends for the two-turn conversation made of
    its system and user prompt, and leaves [messages] alone.  It raises
    what that call raises; where that call returns the content of a 200
    response it prints the content; where that call would return [None]
    for another status it prints the status as an error instead. *)
Theorem example_1_direct_api_mirrors_conversation server sys_promt usr_promt w :
  let conversation := [system sys_promt; user usr_promt] in
  let chat := example_4_conversation server
                (World conversation (attempts w) (printed w)) in
  let run := example_1_direct_api server sys_promt usr_promt w in
  messages (snd run) = messages w /\
  attempts (snd run) = attempts (snd chat) /\
  match server (length (attempts w)) (chat_request conversation) with
  | Raise e => fst run = Raise e /\ fst chat = Raise e /\ printed (snd run) = printed w
  | Return r =>
      if (status_code r =? 200)%Z then
        match fst chat with
        | Return c =>
            fst run = Return tt /\
            printed (snd run) = printed w ++ [fstring "Response: " c]
        | Raise e => fst run = Raise e /\ printed (snd run) = printed w
        end
      else
        fst chat = Return JNull /\
        fst run = Return tt /\
        printed (snd run) = printed w ++ [fstring "Error: " (JNum (status_code r))]
  end.
Proof.
  intros conversation chat run.
  assert (Hchat : fst chat
                  = match server (length (attempts w)) (chat_request conversation) with
                    | Raise e => Raise e
                    | Return r => if (status_code r =? 200)%Z
                                  then reply_content (body r) else Return JNull
                    end).
  { unfold chat. rewrite example_4_conversation_outcome. reflexivity. }
  assert (Hsent : attempts (snd chat) = attempts w ++ [chat_request conversation]).
  { unfold chat. rewrite example_4_conversation_world. reflexivity. }
  rewrite Hsent, Hchat. clear Hchat Hsent chat.
  unfold run, example_1_direct_api, requests_post, send.
  fold conversation. fold (chat_request conversation).
  unfold Py.bind, Py.ret, Py.raise, Py.modify, print, response_json, getitem,
    reply_content.
  destruct (server _ _) as [r|e]; [|simpl; auto].
  destruct (status_code r =? 200)%Z; [|simpl; auto].
  destruct (body r) as [j|]; [|simpl; auto].
  destruct j as [| | | | |fields]; simpl; auto.
  destruct (assoc "message" fields) as [m|]; [|simpl; auto].
  destruct m as [| | | | |inner]; simpl; auto.
  destruct (assoc "content" inner); simpl; auto.
Qed.

(** X3.  The banner cell never raises: it makes the one probe, leaves the
    conversation alone and prints three lines, the first of which is the
    running banner exactly when the probe came back with status 200. *)
Theorem banner_reports_probe server w :
  let run := banner server w in
  fst run = Return tt /\
  messages (snd run) = messages w /\
  attempts (snd run) = attempts w ++ [tags_probe] /\
  exists first second third,
    printed (snd run) = printed w ++ [first; second; third] /\
    (first = JStr "✅ Ollama is running
" <->
     exists r, server (length (attempts w)) tags_probe = Return r /\
               status_code r = 200%Z).
Proof.
  unfold banner, check_ollama_running, requests_get, send, tags_probe, print.
  unfold Py.bind, Py.ret, Py.try_except, Py.modify. simpl.
  destruct (server _ _) as [r|e] eqn:Hs; simpl.
  - destruct (status_code r =? 200)%Z eqn:Hst; simpl;
      (split; [reflexivity|]; split; [reflexivity|]; split; [reflexivity|]);
      do 3 eexists; (split; [rewrite <- !app_assoc; reflexivity|]).
    + split; [|reflexivity]. intros _. exists r. split; [reflexivity|].
      apply Z.eqb_eq. exact Hst.
    + split; [discriminate|]. intros [r' [Hr Hc]].
      injection Hr as <-. apply Z.eqb_neq in Hst. contradiction.
  - split; [reflexivity|]. split; [reflexivity|]. split; [reflexivity|].
    do 3 eexists. split; [rewrite <- !app_assoc; reflexivity|].
    split; [discriminate|]. intros [r [Hr _]]. discriminate.
Qed.

End ConversationFacts.

Module HistoryFacts.
Import Ollama Cells OllamaFacts ConversationFacts.

(** What a question returns depends on the history and on the number of
    requests made so far, not on what has been printed. *)
Lemma ask_result server text w :
  fst (ask server text w)
  = match server (length (attempts w)) (chat_request (messages w ++ [user text])) with
    | Raise e => Raise e
    | Return r =>
        if (status_code r =? 200)%Z then reply_content (body r) else Return JNull
    end.
Proof. rewrite ask_outcome, example_4_conversation_outcome. reflexivity. Qed.

Lemma run_statements_ask server text rest w :
  run_statements server (Ask text :: rest) w
  = match fst (ask server text w) with
    | Return _ =>
        run_statements server rest
          (World (messages w ++ [user text])
                 (attempts w ++ [chat_request (messages w ++ [user text])])
                 (printed w))
    | Raise e =>
        (Raise e,
         World (messages w ++ [user text])
               (attempts w ++ [chat_request (messages w ++ [user text])])
               (printed w))
    end.
Proof.
  cbn [run_statements]. unfold Py.bind at 1.
  pose proof (ask_pair server text w) as H.
  destruct (ask server text w) as [o w1]. simpl in H. injection H as ->.
  destruct o; reflexivity.
Qed.

Lemma run_statements_append server msg rest w :
  run_statements server (AppendAssistant msg :: rest) w
  = run_statements server rest
      (World (messages w ++ [assistant msg]) (attempts w) (printed w)).
Proof. reflexivity. Qed.

Lemma questions_cons_ask text ss : questions (Ask text :: ss) = S (questions ss).
Proof. reflexivity. Qed.

Lemma questions_cons_append msg ss : questions (AppendAssistant msg :: ss) = questions ss.
Proof. reflexivity. Qed.

Lemma last_cons_Some {A} (x y : A) (l : list A) :
  last l = Some y -> last (x :: l) = Some y.
Proof. destruct l as [|z l]; [discriminate|]. intros H. exact H. Qed.

(** The history and the requests of a session, statement by statement. *)
Lemma run_statements_history server ss : forall w,
  let run := run_statements server ss w in
  exists done,
    done `prefix_of` ss /\
    messages (snd run) = messages w ++ map turn_of done /\
    length (attempts (snd run)) = (length (attempts w) + questions done)%nat /\
    match fst run with
    | Return _ => done = ss
    | Raise _ =>
        (exists text, last done = Some (Ask text)) /\
        last (attempts (snd run)) = Some (chat_request (messages (snd run)))
    end.
Proof.
  induction ss as [|s rest IH]; intros w; cbv zeta.
  - exists []. simpl. rewrite app_nil_r.
    split; [reflexivity|]. split; [reflexivity|].
    split; [unfold questions; simpl; lia|reflexivity].
  - destruct s as [text|msg].
    + rewrite run_statements_ask.
      destruct (fst (ask server text w)) as [a|e].
      * set (w1 := World _ _ _).
        destruct (IH w1) as [done [Hpre [Hm [Ha Hend]]]].
        exists (Ask text :: done). split; [|split; [|split]].
        -- destruct Hpre as [k ->]. exists k. reflexivity.
        -- rewrite Hm. unfold w1. cbn [messages map turn_of].
           rewrite <- app_assoc. reflexivity.
        -- rewrite Ha. unfold w1. cbn [attempts].
           rewrite List.length_app, questions_cons_ask. simpl. lia.
        -- destruct (fst (run_statements server rest w1)).
           ++ rewrite Hend. reflexivity.
           ++ destruct Hend as [[t Hlast] Hreq]. split; [|exact Hreq].
              exists t. apply last_cons_Some. exact Hlast.
      * exists [Ask text]. cbn [fst snd messages attempts map turn_of].
        split; [exists rest; reflexivity|]. split; [reflexivity|].
        split; [rewrite List.length_app; reflexivity|].
        split; [exists text; reflexivity|]. apply last_snoc.
    + rewrite run_statements_append.
      set (w1 := World _ _ _).
      destruct (IH w1) as [done [Hpre [Hm [Ha Hend]]]].
      exists (AppendAssistant msg :: done). split; [|split; [|split]].
      * destruct Hpre as [k ->]. exists k. reflexivity.
      * rewrite Hm. unfold w1. cbn [messages map turn_of].
        rewrite <- app_assoc. reflexivity.
      * rewrite Ha. reflexivity.
      * destruct (fst (run_statements server rest w1)).
        -- rewrite Hend. reflexivity.
        -- destruct Hend as [[t Hlast] Hreq]. split; [|exact Hreq].
           exists t. apply last_cons_Some. exact Hlast.
Qed.

Lemma run_statements_requests server ss : forall w,
  let run := run_statements server ss w in
  printed (snd run) = printed w /\
  messages w `prefix_of` messages (snd run) /\
  exists sent,
    attempts (snd run) = attempts w ++ sent /\
    Forall (fun req => exists msgs text,
              req = chat_request (msgs ++ [user text]) /\
              messages w `prefix_of` msgs /\
              (msgs ++ [user text]) `prefix_of` messages (snd run)) sent.
Proof.
  induction ss as [|s rest IH]; intros w; cbv zeta.
  - simpl. split; [reflexivity|]. split; [reflexivity|].
    exists []. rewrite app_nil_r. split; [reflexivity|constructor].
  - destruct s as [text|msg].
    + rewrite run_statements_ask.
      destruct (fst (ask server text w)) as [a|e].
      * set (w1 := World _ _ _).
        destruct (IH w1) as [Hp [Hgrow [sent [Hsent Hall]]]].
        assert (Hw : messages w `prefix_of` messages w1) by (eexists; reflexivity).
        split; [exact Hp|]. split; [etrans; eassumption|].
        exists (chat_request (messages w ++ [user text]) :: sent). split.
        -- rewrite Hsent. unfold w1. cbn [attempts]. rewrite <- app_assoc. reflexivity.
        -- constructor.
           ++ exists (messages w), text. split; [reflexivity|].
              split; [reflexivity|exact Hgrow].
           ++ eapply Forall_impl; [exact Hall|].
              intros r [msgs [t [Hr [Hlo Hhi]]]]. exists msgs, t.
              split; [exact Hr|]. split; [etrans; eassumption|exact Hhi].
      * cbn [fst snd messages attempts printed].
        split; [reflexivity|]. split; [eexists; reflexivity|].
        exists [chat_request (messages w ++ [user text])]. split; [reflexivity|].
        constructor; [|constructor].
        exists (messages w), text. split; [reflexivity|]. split; reflexivity.
    + rewrite run_statements_append.
      set (w1 := World _ _ _).
      destruct (IH w1) as [Hp [Hgrow [sent [Hsent Hall]]]].
      assert (Hw : messages w `prefix_of` messages w1) by (eexists; reflexivity).
      split; [exact Hp|]. split; [etrans; eassumption|].
      exists sent. split; [exact Hsent|].
      eapply Forall_impl; [exact Hall|].
      intros r [msgs [t [Hr [Hlo Hhi]]]]. exists msgs, t.
      split; [exact Hr|]. split; [etrans; eassumption|exact Hhi].
Qed.

Lemma start_conversation_run server w :
  let opening := [system "You are a helpful coding assistant.";
                  user "How do I read a file in Python?"] in
  let headers := [JStr "
Example 4: Conversation"; JStr "------------------------------"] in
  start_conversation server w
  = match fst (ask server "How do I read a file in Python?"
                   (World [system "You are a helpful coding assistant."]
                          (attempts w) (printed w))) with
    | Return a =>
        (Return a,
         World opening (attempts w ++ [chat_request opening])
               (printed w ++ headers ++ [fstring "Assistant:
" a]))
    | Raise e =>
        (Raise e,
         World opening (attempts w ++ [chat_request opening]) (printed w ++ headers))
    end.
Proof.
  intros opening headers. unfold start_conversation, set_messages, print.
  unfold Py.bind, Py.modify, Py.ret. cbn [messages attempts printed].
  set (w0 := World [system "You are a helpful coding assistant."] (attempts w)
                   (_ ++ _)).
  assert (Hsame : fst (ask server "How do I read a file in Python?" w0)
                  = fst (ask server "How do I read a file in Python?"
                           (World [system "You are a helpful coding assistant."]
                                  (attempts w) (printed w)))).
  { rewrite !ask_result. reflexivity. }
  rewrite <- Hsame.
  pose proof (ask_pair server "How do I read a file in Python?" w0) as H.
  destruct (ask server "How do I read a file in Python?" w0) as [o w1].
  simpl in H. injection H as ->.
  destruct o; unfold headers; cbn [fst messages attempts printed];
    rewrite <- ?app_assoc; reflexivity.
Qed.

Lemma follow_up_run server w :
  let history := messages w ++ [user "What about error handling?"] in
  follow_up server w
  = match fst (ask server "What about error handling?" w) with
    | Return a =>
        (Return a,
         World history (attempts w ++ [chat_request history])
               (printed w ++ [fstring "

Follow-up:
" a]))
    | Raise e =>
        (Raise e, World history (attempts w ++ [chat_request history]) (printed w))
    end.
Proof.
  intros history. unfold follow_up, print.
  unfold Py.bind, Py.modify, Py.ret.
  pose proof (ask_pair server "What about error handling?" w) as H.
  destruct (ask server "What about error handling?" w) as [o w1].
  simpl in H. injection H as ->. destruct o; reflexivity.
Qed.

Lemma notebook_run server w :
  let opening := [system "You are a helpful coding assistant.";
                  user "How do I read a file in Python?"] in
  let headers := [JStr "
Example 4: Conversation"; JStr "------------------------------"] in
  notebook server w
  = match fst (start_conversation server w) with
    | Return a =>
        follow_up server
          (World (opening ++ [assistant a])
                 (attempts w ++ [chat_request opening])
                 (printed w ++ headers ++ [fstring "Assistant:
" a]))
    | Raise e =>
        (Raise e,
         World opening (attempts w ++ [chat_request opening]) (printed w ++ headers))
    end.
Proof.
  intros opening headers. unfold notebook. unfold Py.bind at 1.
  rewrite (start_conversation_run server w). fold opening headers.
  destruct (fst (ask server "How do I read a file in Python?" _)) as [a|e];
    reflexivity.
Qed.

(** The notebook's conversation cells are a session of three statements:
    the first question, the append of its reply, the follow-up question. *)
Lemma notebook_statements server w :
  let start := World [system "You are a helpful coding assistant."]
                     (attempts w) (printed w) in
  let script := fun a => [Ask "How do I read a file in Python?";
                          AppendAssistant a;
                          Ask "What about error handling?"] in
  match fst (start_conversation server w) with
  | Return a =>
      messages (snd (notebook server w))
      = messages (snd (run_statements server (script a) start)) /\
      attempts (snd (notebook server w))
      = attempts (snd (run_statements server (script a) start))
  | Raise _ =>
      messages (snd (notebook server w))
      = messages (snd (run_statements server
                         [Ask "How do I read a file in Python?"] start)) /\
      attempts (snd (notebook server w))
      = attempts (snd (run_statements server
                         [Ask "How do I read a file in Python?"] start))
  end.
Proof.
  intros start script. rewrite (notebook_run server w).
  rewrite (start_conversation_run server w). fold start.
  unfold script.
  destruct (fst (ask server "How do I read a file in Python?" start)) as [a|e]
    eqn:Hask; cbn [fst]; rewrite run_statements_ask, Hask.
  - rewrite run_statements_append, run_statements_ask, follow_up_run.
    cbn [messages attempts printed].
    rewrite !ask_result. cbn [messages attempts].
    destruct (server _ _) as [r|e]; [|split; reflexivity].
    destruct (status_code r =? 200)%Z; [|split; reflexivity].
    destruct (reply_content (body r)); split; reflexivity.
  - cbn [fst snd]. split; reflexivity.
Qed.

(** C2, as the code has it.  For every finite sequence of the notebook's
    conversation statements on one [messages] list, run until one raises,
    the history is its initial value followed by exactly one turn for each
    statement carried out, in order: the user turn of every question,
    also of the one whose call raised, and every assistant turn appended.
    Every question makes one request, and when a call raises the last
    request carried the history as it is left.  Nothing is removed.  The
    notebook's own conversation cells are such a sequence, so their run
    leaves the user turn of the follow-up question as fourth turn. *)
Theorem conversation_statements_history server ss w :
  let run := run_statements server ss w in
  (exists done,
     done `prefix_of` ss /\
     messages (snd run) = messages w ++ map turn_of done /\
     length (messages (snd run)) = (length (messages w) + length done)%nat /\
     length (attempts (snd run)) = (length (attempts w) + questions done)%nat /\
     match fst run with
     | Return _ => done = ss
     | Raise _ =>
         (exists text, last done = Some (Ask text)) /\
         last (attempts (snd run)) = Some (chat_request (messages (snd run)))
     end) /\
  let start := World [system "You are a helpful coding assistant."]
                     (attempts w) (printed w) in
  match fst (start_conversation server w) with
  | Return a =>
      messages (snd (notebook server w))
      = messages (snd (run_statements server
                         [Ask "How do I read a file in Python?";
                          AppendAssistant a;
                          Ask "What about error handling?"] start))
  | Raise _ =>
      messages (snd (notebook server w))
      = messages (snd (run_statements server
                         [Ask "How do I read a file in Python?"] start))
  end.
Proof.
  cbv zeta. split.
  - destruct (run_statements_history server ss w) as [done [Hpre [Hm [Ha Hend]]]].
    exists done. split; [exact Hpre|]. split; [exact Hm|].
    split; [rewrite Hm, List.length_app, List.length_map; reflexivity|].
    split; [exact Ha|exact Hend].
  - pose proof (notebook_statements server w) as H. cbv zeta in H.
    destruct (fst (start_conversation server w)); apply H.
Qed.

(** X4.  Over any sequence of the notebook's conversation statements, run
    until one raises, the history only grows at its end and nothing is
    printed; every request made carries a conversation that ends with the
    user turn just asked, extends the history the run started with and is
    a beginning of the final history: no turn is dropped, reordered or
    rewritten between calls.  The requests of the notebook's own
    conversation cells carry beginnings of its final history in the same
    way. *)
Theorem requests_carry_history server ss w :
  let run := run_statements server ss w in
  (printed (snd run) = printed w /\
   messages w `prefix_of` messages (snd run) /\
   exists sent,
     attempts (snd run) = attempts w ++ sent /\
     Forall (fun req => exists msgs text,
               req = chat_request (msgs ++ [user text]) /\
               messages w `prefix_of` msgs /\
               (msgs ++ [user text]) `prefix_of` messages (snd run)) sent) /\
  exists sent,
    attempts (snd (notebook server w)) = attempts w ++ sent /\
    Forall (fun req => exists msgs text,
              req = chat_request (msgs ++ [user text]) /\
              (msgs ++ [user text]) `prefix_of` messages (snd (notebook server w)))
           sent.
Proof.
  cbv zeta. split; [apply run_statements_requests|].
  pose proof (notebook_statements server w) as H. cbv zeta in H.
  set (start := World [system "You are a helpful coding assistant."]
                      (attempts w) (printed w)) in H.
  assert (Hgen : forall script,
            messages (snd (notebook server w))
            = messages (snd (run_statements server script start)) /\
            attempts (snd (notebook server w))
            = attempts (snd (run_statements server script start)) ->
            exists sent,
              attempts (snd (notebook server w)) = attempts w ++ sent /\
              Forall (fun req => exists msgs text,
                        req = chat_request (msgs ++ [user text]) /\
                        (msgs ++ [user text]) `prefix_of`
                          messages (snd (notebook server w))) sent).
  { intros script [Hm Ha].
    destruct (run_statements_requests server script start)
      as [_ [_ [sent [Hsent Hall]]]].
    exists sent. split; [rewrite Ha; exact Hsent|].
    eapply Forall_impl; [exact Hall|].
    intros r [msgs [t [Hr [_ Hhi]]]]. exists msgs, t.
    split; [exact Hr|]. rewrite Hm. exact Hhi. }
  destruct (fst (start_conversation server w)); eapply Hgen; exact H.
Qed.

Lemma system_turn_invariant_snoc c m :
  system_turn_invariant c -> is_system m = false ->
  system_turn_invariant (c ++ [m]).
Proof.
  intros [Hcount Hfirst] Hm. split.
  - rewrite filter_is_system_snoc, Hm. lia.
  - intros i x Hi Hx.
    destruct (decide (i < length c)%nat) as [Hlt|Hge].
    + rewrite lookup_app_l in Hi by exact Hlt. apply (Hfirst i x); assumption.
    + rewrite lookup_app_r in Hi by lia.
      destruct (i - length c)%nat as [|k]; simpl in Hi; [|discriminate].
      injection Hi as ->. congruence.
Qed.

(** X5.  The rounds never add a system turn, so they keep the system-turn
    invariant of a history that has it (at most one system turn, and it
    is first), whether every call returns or one of them raises. *)
Theorem chat_rounds_keep_system_turn_invariant server texts w
    (Hinvariant : system_turn_invariant (messages w)) :
  system_turn_invariant (messages (snd (chat_rounds server texts w))).
Proof.
  revert w Hinvariant. induction texts as [|text rest IH]; intros w Hinv.
  - exact Hinv.
  - rewrite chat_rounds_cons, chat_round_spec.
    destruct (fst (ask server text w)) as [a|e].
    + set (w1 := World _ _ _).
      assert (Hinv1 : system_turn_invariant (messages w1)).
      { unfold w1. cbn [messages].
        change [user text; assistant a] with ([user text] ++ [assistant a]).
        rewrite app_assoc.
        apply system_turn_invariant_snoc; [|reflexivity].
        apply system_turn_invariant_snoc; [exact Hinv|reflexivity]. }
      specialize (IH w1 Hinv1).
      destruct (chat_rounds server rest w1) as [[n|e] w2]; exact IH.
    + cbn [snd messages]. apply system_turn_invariant_snoc; [exact Hinv|reflexivity].
Qed.

Lemma chat_rounds_keep_system_turn_invariant_witness :
  system_turn_invariant
    (messages (snd (chat_rounds (flaky "Use open().") ["first"; "second"; "third"]
                                (World [system "You are a helpful coding assistant."] [] [])))).
Proof.
  apply chat_rounds_keep_system_turn_invariant.
  split; [simpl; lia|]. intros [|i] x Hi Hx; [reflexivity|discriminate].
Defined.

(** X6.  Running the notebook's conversation cells always starts the
    history afresh, whatever it held before: it ends as the system turn
    and the first question alone when the first call raises, and otherwise
    as those two, the first reply as assistant turn, and the follow-up
    question.  Either way the history has its one system turn first, and
    the requests made before are kept in the log. *)
Theorem notebook_rebuilds_history server w :
  let opening := [system "You are a helpful coding assistant.";
                  user "How do I read a file in Python?"] in
  let run := notebook server w in
  match fst (start_conversation server w) with
  | Return a =>
      messages (snd run)
      = opening ++ [assistant a; user "What about error handling?"]
  | Raise e => fst run = Raise e /\ messages (snd run) = opening
  end /\
  system_turn_invariant (messages (snd run)) /\
  attempts w `prefix_of` attempts (snd run).
Proof.
  intros opening run.
  assert (Hinv : forall a, system_turn_invariant
                   (opening ++ [assistant a; user "What about error handling?"])).
  { intros a. split; [simpl; lia|].
    intros [|[|[|[|i]]]] x Hi Hx; try reflexivity; simpl in Hi;
      try discriminate; injection Hi as <-; discriminate. }
  assert (Hinv0 : system_turn_invariant opening).
  { split; [simpl; lia|].
    intros [|[|i]] x Hi Hx; try reflexivity; simpl in Hi;
      try discriminate; injection Hi as <-; discriminate. }
  unfold run. rewrite (notebook_run server w). fold opening.
  destruct (fst (start_conversation server w)) as [a|e].
  - rewrite follow_up_run. cbn [messages attempts printed].
    destruct (fst (ask server "What about error handling?" _)) as [answer|e];
      cbn [fst snd messages attempts]; rewrite <- !app_assoc;
      (split; [reflexivity|]); (split; [apply Hinv|]); eexists; reflexivity.
  - cbn [fst snd messages attempts].
    split; [split; reflexivity|]. split; [exact Hinv0|eexists; reflexivity].
Qed.

End HistoryFacts.

(** * Properties of the set-up cells *)

Module SetupFacts.
Import Setup.

Lemma truthy_spec v : truthy v = true <-> exists s, v = Some s /\ s <> "".
Proof.
  destruct v as [s|]; simpl.
  - rewrite negb_true_iff, String.eqb_neq. split.
    + intros H. exists s. auto.
    + intros [s' [[= <-] H]]. exact H.
  - split; [discriminate|]. intros [s [H _]]. discriminate.
Qed.

Example app_with_both_keys :
  fst (app {["OPENAI_API_KEY" := "sk-1"; "QUALIFIRE_API_KEY" := "qf-1"]}
           sdk_accepts empty_world)
  = Return {| api_key := Some "sk-1";
              base_url := "https://proxy.qualifire.ai/api/providers/openai";
              default_headers := [("X-Qualifire-Api-Key", Some "qf-1")] |}.
Proof. reflexivity. Qed.

Example app_with_empty_key :
  app {["OPENAI_API_KEY" := "sk-1"; "QUALIFIRE_API_KEY" := ""]}
      sdk_accepts empty_world
  = (Raise (ValueError "OPENAI_API_KEY and QUALIFIRE_API_KEY must be set"),
     World [Some ""] [] []).
Proof. reflexivity. Qed.

Example check_keys_without_together :
  check_keys {["OPENAI_API_KEY" := "sk-1"]} empty_world
  = (Return tt,
     World [] ["TOGETHER_API_KEY environment variable is not set. Please set it before running this demo.";
               "OPENAI_API_KEY is set"]
           [1%Z]).
Proof. reflexivity. Qed.

(** X7.  The gateway set-up hands [qualifire.init] the Qualifire key as the
    environment has it, also when it is unset or empty, before anything is
    checked.  If the SDK then returns, a client is built exactly when both
    keys are set and not empty, and it carries the OpenAI key as its API
    key, the Qualifire key in the [X-Qualifire-Api-Key] header and the
    proxy as base URL; with a key unset or empty the set-up raises the
    [ValueError] and builds no client.  An exception of the SDK goes
    through. *)
Theorem app_builds_client_only_with_both_keys environ sdk w :
  let run := app environ sdk w in
  let openai_key := environ !! "OPENAI_API_KEY" in
  let qualifire_key := environ !! "QUALIFIRE_API_KEY" in
  inits (snd run) = inits w ++ [qualifire_key] /\
  stdout (snd run) = stdout w /\
  match sdk qualifire_key with
  | Raise e => fst run = Raise e
  | Return _ =>
      (forall client, fst run = Return client <->
         (exists k q, openai_key = Some k /\ k <> "" /\
                      qualifire_key = Some q /\ q <> "" /\
                      client = {| api_key := Some k;
                                  base_url := "https://proxy.qualifire.ai/api/providers/openai";
                                  default_headers := [("X-Qualifire-Api-Key", Some q)] |})) /\
      (fst run = Raise (ValueError "OPENAI_API_KEY and QUALIFIRE_API_KEY must be set") <->
         truthy openai_key = false \/ truthy qualifire_key = false)
  end.
Proof.
  intros run openai_key qualifire_key. subst run.
  unfold app, os_getenv, qualifire_init.
  unfold Py.bind, Py.ret, Py.raise. cbn [fst snd inits stdout].
  fold openai_key qualifire_key.
  destruct (sdk qualifire_key) as [[]|e]; [|simpl; auto].
  destruct (truthy openai_key) eqn:Ho; destruct (truthy qualifire_key) eqn:Hq;
    cbn [negb orb fst snd inits stdout];
    (split; [reflexivity|]; split; [reflexivity|]); split.
  - intros client. split.
    + intros [= <-].
      apply truthy_spec in Ho. apply truthy_spec in Hq.
      destruct Ho as [k [Hk Hk']]. destruct Hq as [q [Hq1 Hq']].
      exists k, q. rewrite Hk, Hq1. auto.
    + intros [k [q [Hk [_ [Hq1 [_ ->]]]]]]. rewrite Hk, Hq1. reflexivity.
  - split; [discriminate|]. intros [H|H]; discriminate.
  - intros client. split; [discriminate|].
    intros [k [q [_ [_ [Hq' [Hne _]]]]]].
    assert (truthy qualifire_key = true) by (apply truthy_spec; eauto). congruence.
  - split; auto.
  - intros client. split; [discriminate|].
    intros [k [q [Hk' [Hne _]]]].
    assert (truthy openai_key = true) by (apply truthy_spec; eauto). congruence.
  - split; auto.
  - intros client. split; [discriminate|].
    intros [k [q [Hk' [Hne _]]]].
    assert (truthy openai_key = true) by (apply truthy_spec; eauto). congruence.
  - split; auto.
Qed.

(** X8.  In the notebook's kernel [exit(1)] returns, so the key check never
    stops early: it always looks at both keys and prints exactly two lines,
    for each key its confirmation when the key is set and not empty and
    the request to set it otherwise, and it calls [exit(1)] once for each
    key that is unset or empty. *)
Theorem check_keys_goes_on_after_exit environ w :
  let together := environ !! "TOGETHER_API_KEY" in
  let openai_key := environ !! "OPENAI_API_KEY" in
  check_keys environ w
  = (Return tt,
     World (inits w)
           (stdout w ++
            [if truthy together then "TOGETHER_API_KEY is set"
             else "TOGETHER_API_KEY environment variable is not set. Please set it before running this demo.";
             if truthy openai_key then "OPENAI_API_KEY is set"
             else "OPENAI_API_KEY environment variable is not set. Please set it before running this demo."])
           (exits w ++ (if truthy together then [] else [1%Z])
                    ++ (if truthy openai_key then [] else [1%Z]))).
Proof.
  intros together openai_key.
  unfold check_keys, os_getenv, print, exit.
  unfold Py.bind, Py.ret, Py.modify. cbn [fst snd].
  fold together openai_key.
  destruct (truthy together); destruct (truthy openai_key);
    cbn [negb inits stdout exits]; rewrite <- ?app_assoc, ?app_nil_r; reflexivity.
Qed.

End SetupFacts.

(** * Properties of the LangChain cell *)

Module LangChainFacts.
Import LangChain.

Example example_3_langchain_basic_answers :
  example_3_langchain_basic installed (answering "ML is pattern finding.")
    "Explain machine learning in one sentence." (World [])
  = (Return tt, World ["LangChain response: ML is pattern finding."]).
Proof. reflexivity. Qed.

Example example_3_langchain_basic_missing :
  example_3_langchain_basic missing (answering "x") "q" (World [])
  = (Return tt,
     World ["LangChain not installed. Run: pip install langchain langchain-community"]).
Proof. reflexivity. Qed.

Example example_3_langchain_basic_unreachable :
  example_3_langchain_basic installed unreachable "q" (World [])
  = (Return tt, World ["Error: connection refused"]).
Proof. reflexivity. Qed.

Example example_3_langchain_basic_interrupted :
  example_3_langchain_basic installed interrupted "q" (World [])
  = (Raise (Exn KeyboardInterrupt ""), World []).
Proof. reflexivity. Qed.

(** X9.  [example_3_langchain_basic] lets no [Exception] out: whatever the
    import, the constructor and the call do, it either returns after
    printing exactly one line, or raises something that is not an
    [Exception] (a keyboard interrupt, a system exit) and has printed
    nothing. *)
Theorem example_3_langchain_basic_contains_exceptions import_ ctor usr_promt w :
  let run := example_3_langchain_basic import_ ctor usr_promt w in
  match fst run with
  | Return _ => exists line, stdout (snd run) = stdout w ++ [line]
  | Raise e => is_Exception e = false /\ snd run = w
  end.
Proof.
  unfold example_3_langchain_basic, lift, print.
  unfold Py.try_except, Py.bind, Py.modify. cbv zeta.
  destruct import_ as [[]|e].
  - destruct (ctor _ _) as [llm|e].
    + destruct (llm usr_promt) as [content|e].
      * simpl. eexists. reflexivity.
      * destruct e as [[] msg]; simpl; try (eexists; reflexivity); auto.
    + destruct e as [[] msg]; simpl; try (eexists; reflexivity); auto.
  - destruct e as [[] msg]; simpl; try (eexists; reflexivity); auto.
Qed.

(** X10.  The first [except] clause answers for every [ImportError],
    wherever in the body it comes from: when the import succeeded and the
    call to the model itself raises an [ImportError] (or a
    [ModuleNotFoundError]), the function still reports that LangChain is
    not installed, and the text of the exception is not shown. *)
Theorem example_3_langchain_basic_blames_install import_ ctor usr_promt w llm e
    (Himport : import_ = Return tt)
    (Hctor : ctor "llama3.1:8b" (Q2Qc (1 # 10)) = Return llm)
    (Hcall : llm usr_promt = Raise e)
    (Hclass : is_ImportError e = true) :
  example_3_langchain_basic import_ ctor usr_promt w
  = (Return tt,
     World (stdout w ++
            ["LangChain not installed. Run: pip install langchain langchain-community"])).
Proof.
  unfold example_3_langchain_basic, lift, print.
  unfold Py.try_except, Py.bind, Py.modify.
  rewrite Himport, Hctor, Hcall, Hclass. reflexivity.
Qed.

Lemma example_3_langchain_basic_blames_install_witness :
  stdout (snd (example_3_langchain_basic installed
                 (fun _ _ => Return (fun _ => Raise (Exn ImportError "No module named 'ollama'")))
                 "Explain machine learning in one sentence." (World [])))
  = ["LangChain not installed. Run: pip install langchain langchain-community"].
Proof.
  rewrite (example_3_langchain_basic_blames_install installed
             (fun _ _ => Return (fun _ => Raise (Exn ImportError "No module named 'ollama'")))
             "Explain machine learning in one sentence." (World [])
             (fun _ => Raise (Exn ImportError "No module named 'ollama'"))
             (Exn ImportError "No module named 'ollama'")
             eq_refl eq_refl eq_refl eq_refl).
  reflexivity.
Defined.

End LangChainFacts.

(** * Further properties of output-guardrail.ipynb *)

Module GuardrailFacts.
Import Firewall FirewallFacts.

(** A caller that passes one text as input and keeps another in the
    context: the scan sees the one in the context. *)
Example scan_of_stale_context :
  scans (snd (Runner_run recorded_llm (agent recorded_scanner) "What's the weather?"
                (World {["user_input" := "Make me a pizza"]} [] None [])))
  = [[UserMessage (Some "Make me a pizza"); AssistantMessage "I'll make a hamburger."]].
Proof. reflexivity. Qed.

(** X11.  The guardrail judges the reply against the context entry
    ["user_input"] alone: the user turn of the scanned trace is that entry
    ([None] when it is missing), whatever input the run was given, and the
    guardrail's result and trace are the same for any agent name,
    instructions and model.  The run leaves the context as it was. *)
Theorem guardrail_reads_context_only llm scanner inp w out
    (Hcandidate : llm (instructions (info (agent scanner))) inp = Return out) :
  scans (snd (Runner_run llm (agent scanner) inp w))
  = scans w ++ [exchange (context w !! "user_input") out] /\
  context (snd (Runner_run llm (agent scanner) inp w)) = context w /\
  forall a a' : AgentInfo,
    llamafirewall_check_output scanner a out w
    = llamafirewall_check_output scanner a' out w.
Proof.
  rewrite Runner_run_agent, Hcandidate. cbv zeta.
  split; [|split].
  - destruct (decision _); reflexivity.
  - destruct (decision _); reflexivity.
  - intros a a'. reflexivity.
Qed.

Lemma guardrail_reads_context_only_witness :
  scans (snd (Runner_run recorded_llm (agent recorded_scanner) "What's the weather?"
                (World {["user_input" := "Make me a pizza"]} [] None [])))
  = [] ++ [exchange (Some "Make me a pizza") "I'll make a hamburger."].
Proof.
  exact (proj1 (guardrail_reads_context_only recorded_llm recorded_scanner
                  "What's the weather?"
                  (World {["user_input" := "Make me a pizza"]} [] None [])
                  "I'll make a hamburger." eq_refl)).
Defined.

(** X12.  The guarded cell handles the two tripwire exceptions and nothing
    else.  Without a ["user_input"] entry in the context it raises
    [KeyError] before the agent runs; when the model call raises anything
    but a tripwire, that exception goes through.  In both cases nothing is
    scanned, printed or stored. *)
Theorem guarded_run_passes_other_errors llm scanner w :
  match context w !! "user_input" with
  | None => guarded_run llm scanner w = (Raise (KeyError "user_input"), w)
  | Some inp =>
      match llm (instructions (info (agent scanner))) inp with
      | Raise e =>
          if is_tripwire e then fst (guarded_run llm scanner w) = Return tt
          else guarded_run llm scanner w = (Raise e, w)
      | Return _ => fst (guarded_run llm scanner w) = Return tt
      end
  end.
Proof.
  rewrite guarded_run_unfold.
  destruct (context w !! "user_input") as [inp|] eqn:Hc; [|reflexivity].
  rewrite Runner_run_agent.
  destruct (llm _ inp) as [out|e].
  - cbv zeta. rewrite Hc. destruct (decision _); reflexivity.
  - destruct (is_tripwire e); reflexivity.
Qed.



End GuardrailFacts.
